(** * calories-analytics: the image-to-nutrition pipelines, embedded and verified

    The repository holds three variants of one linear pipeline:
    - [app_gemini_only.py]: Streamlit page, Gemini returns JSON that pydantic
      validates into a [NutritionEstimate];
    - [app.py]: Streamlit page, Gemini returns a one-line food query that is
      sent to the CalorieNinjas HTTP API;
    - [main.py]: the same two-step pipeline as a console script.

    Python values are modelled as follows.  A [str] is a list of Unicode code
    points, bytes are [Byte.byte]s, a float is an exact rational (rounding and
    the non-finite floats are outside the model), a raised exception is the left
    injection of a sum.  The file system, the provider client and the HTTP
    session are explicit: a [World] is threaded through every effectful
    function and records each outside call in a trace. *)

From Stdlib Require Import QArith Ascii String DecimalString.
From stdpp Require Import gmap strings list.

Local Open Scope Z_scope.
#[local] Set Warnings "-register-all".

(** ** Python strings *)

Module Py.

Definition str := list N.

(** An ASCII literal as a [str]. *)
Definition lit (s : string) : str :=
  map N_of_ascii (String.list_ascii_of_string s).
Arguments lit : simpl never.

Definition bytes := list Byte.byte.

Definition ch (a : ascii) : N := N_of_ascii a.

(** The double quote, and literals written with apostrophes in its place. *)
Definition dquote : N := 34%N.

Definition dq (s : string) : str :=
  map (λ c, if (c =? 39)%N then dquote else c) (lit s).

(** [str(n)] of an integer. *)
Definition str_of_Z (z : Z) : str :=
  lit (DecimalString.NilZero.string_of_int (Z.to_int z)).

(** [str.isspace] on one code point: the Unicode characters of bidirectional
    class WS, B or S, or of category Zs. *)
Definition isspace (c : N) : bool :=
  ((9 <=? c) && (c <=? 13) || (28 <=? c) && (c <=? 32)
   || (c =? 133) || (c =? 160) || (c =? 5760)
   || (8192 <=? c) && (c <=? 8202)
   || (c =? 8232) || (c =? 8233) || (c =? 8239) || (c =? 8287)
   || (c =? 12288))%N.

Fixpoint lstrip (s : str) : str :=
  match s with
  | c :: r => if isspace c then lstrip r else s
  | [] => []
  end.

Definition rstrip (s : str) : str := rev (lstrip (rev s)).

(** [s.strip()] *)
Definition strip (s : str) : str := rstrip (lstrip s).

(** [s.replace(old, new)] where [old] is the one character [c]. *)
Fixpoint replace (c : N) (new : str) (s : str) : str :=
  match s with
  | x :: r => (if (x =? c)%N then new else [x]) ++ replace c new r
  | [] => []
  end.

(** [s.split(sep)] where [sep] is the one character [c]: never empty. *)
Fixpoint split (c : N) (s : str) : list str :=
  match s with
  | [] => [[]]
  | x :: r =>
      if (x =? c)%N then [] :: split c r
      else match split c r with
           | h :: t => (x :: h) :: t
           | [] => [[x]]
           end
  end.

(** [parts[-1]] of a list that [split] returned. *)
Definition last_part (parts : list str) : str := List.last parts [].

(** Truthiness of a [str]: [not s] holds of the empty string only. *)
Definition truthy (s : str) : bool :=
  match s with [] => false | _ => true end.

(** ASCII lower-casing, enough for file extensions. *)
Definition lower (s : str) : str :=
  map (λ c, if ((65 <=? c) && (c <=? 90))%N then (c + 32)%N else c) s.

(** The exception classes the three scripts raise or let through.
    [ValidationError] is pydantic's, parametrised by its line errors;
    [External] stands for an exception class of a client library
    (google-genai, requests) raised inside one of its calls. *)
Inductive exn (E : Type) :=
  | ValueError (msg : str)
  | RuntimeError (msg : str)
  | TypeError (msg : str)
  | AttributeError (msg : str)
  | OSError (msg : str)
  | FileExistsError (msg : str)
  | FileNotFoundError (msg : str)
  | JSONDecodeError (doc : str)
  | ValidationError (title : str) (errors : list E)
  | External (cls : str) (msg : str).
Arguments ValueError {E} msg.
Arguments RuntimeError {E} msg.
Arguments TypeError {E} msg.
Arguments AttributeError {E} msg.
Arguments OSError {E} msg.
Arguments FileExistsError {E} msg.
Arguments FileNotFoundError {E} msg.
Arguments JSONDecodeError {E} doc.
Arguments ValidationError {E} title errors.
Arguments External {E} cls msg.

End Py.

Import Py.

(** ** JSON documents and their decoder *)

Module Json.

Inductive json :=
  | JNull
  | JBool (b : bool)
  | JNum (q : Q)
  | JStr (s : str)
  | JArr (l : list json)
  | JObj (o : list (str * json)).

(** Member lookup.  A decoded object keeps its members in textual order; as in
    a Python [dict] built by the decoder, a repeated key holds its last value. *)
Fixpoint obj_get (k : str) (o : list (str * json)) : option json :=
  match o with
  | [] => None
  | (k', v) :: r =>
      match obj_get k r with
      | Some v' => Some v'
      | None => if decide (k' = k) then Some v else None
      end
  end.

(** *** Number literals *)

Definition is_digit (c : N) : bool := ((48 <=? c) && (c <=? 57))%N.

Fixpoint take_digits (s : str) : list N * str :=
  match s with
  | c :: r =>
      if is_digit c
      then let '(ds, rest) := take_digits r in ((c - 48)%N :: ds, rest)
      else ([], s)
  | [] => ([], [])
  end.

Definition digits_val (ds : list N) : Z :=
  fold_left (λ acc d, 10 * acc + Z.of_N d) ds 0.

(** The pieces of a scanned literal: sign, integer digits, fraction digits
    (when a point is present) and exponent (when one is present). *)
Record literal := {
  lit_sign : option bool;      (* [Some true] for '-', [Some false] for '+' *)
  lit_int : list N;
  lit_frac : option (list N);
  lit_exp : option Z
}.

Definition scan_sign (s : str) : option bool * str :=
  match s with
  | c :: r =>
      if (c =? ch "-")%N then (Some true, r)
      else if (c =? ch "+")%N then (Some false, r)
      else (None, s)
  | [] => (None, [])
  end.

Definition scan_exp (s : str) : option (option Z * str) :=
  match s with
  | c :: r =>
      if ((c =? ch "e") || (c =? ch "E"))%N then
        let '(sg, r1) := scan_sign r in
        let '(ds, r2) := take_digits r1 in
        match ds with
        | [] => None
        | _ => Some (Some (if sg is Some true then - digits_val ds else digits_val ds), r2)
        end
      else Some (None, s)
  | [] => Some (None, [])
  end.

Definition scan_literal (s : str) : option (literal * str) :=
  let '(sg, r0) := scan_sign s in
  let '(ip, r1) := take_digits r0 in
  let '(fp, r2) :=
    match r1 with
    | c :: r =>
        if (c =? ch ".")%N
        then let '(ds, rest) := take_digits r in (Some ds, rest)
        else (None, r1)
    | [] => (None, [])
    end in
  match ip, fp with
  | [], None | [], Some [] => None
  | _, _ =>
      match scan_exp r2 with
      | Some (e, r3) =>
          Some ({| lit_sign := sg; lit_int := ip; lit_frac := fp; lit_exp := e |}, r3)
      | None => None
      end
  end.

Definition pow10 (e : Z) (m : Z) : Q :=
  if 0 <=? e then Qmake (m * 10 ^ e) 1 else Qmake m (Z.to_pos (10 ^ (- e))).

Definition literal_val (l : literal) : Q :=
  let fd := default [] (lit_frac l) in
  let m := digits_val (lit_int l ++ fd) in
  let e := default 0 (lit_exp l) - Z.of_nat (length fd) in
  pow10 e (if lit_sign l is Some true then - m else m).

(** The JSON grammar is stricter than the scanner: no plus sign, no leading
    zero, digits on both sides of a point. *)
Definition json_literal_ok (l : literal) : bool :=
  match lit_sign l with Some false => false | _ => true end
  && match lit_int l with
     | [] => false
     | [_] => true
     | d :: _ => negb (d =? 0)%N
     end
  && match lit_frac l with Some [] => false | _ => true end.

(** *** String literals *)

Definition hex_val (c : N) : option N :=
  if is_digit c then Some (c - 48)%N
  else if ((97 <=? c) && (c <=? 102))%N then Some (c - 87)%N
  else if ((65 <=? c) && (c <=? 70))%N then Some (c - 55)%N
  else None.

Definition hex4 (s : str) : option (N * str) :=
  match s with
  | a :: b :: c :: d :: r =>
      match hex_val a, hex_val b, hex_val c, hex_val d with
      | Some a, Some b, Some c, Some d => Some (((a * 16 + b) * 16 + c) * 16 + d, r)%N
      | _, _, _, _ => None
      end
  | _ => None
  end.

Definition is_high (u : N) : bool := ((55296 <=? u) && (u <=? 56319))%N.
Definition is_low (u : N) : bool := ((56320 <=? u) && (u <=? 57343))%N.

(** The body of a string literal, after the opening quote.  The fuel bounds
    the number of characters read. *)
Fixpoint scan_string (n : nat) (s : str) : option (str * str) :=
  match n with
  | O => None
  | S n =>
      match s with
      | [] => None
      | c :: r =>
          if (c =? dquote)%N then Some ([], r)
          else if (c <? 32)%N then None
          else if (c =? ch "\")%N then
            match r with
            | e :: r' =>
                let cont (x : N) (rest : str) :=
                  match scan_string n rest with
                  | Some (t, rest') => Some (x :: t, rest')
                  | None => None
                  end in
                if (e =? dquote)%N then cont e r'
                else if (e =? ch "\")%N then cont e r'
                else if (e =? ch "/")%N then cont e r'
                else if (e =? ch "b")%N then cont 8%N r'
                else if (e =? ch "f")%N then cont 12%N r'
                else if (e =? ch "n")%N then cont 10%N r'
                else if (e =? ch "r")%N then cont 13%N r'
                else if (e =? ch "t")%N then cont 9%N r'
                else if (e =? ch "u")%N then
                  match hex4 r' with
                  | Some (u, r2) =>
                      if is_high u then
                        match r2 with
                        | b1 :: b2 :: r3 =>
                            if ((b1 =? ch "\") && (b2 =? ch "u"))%N then
                              match hex4 r3 with
                              | Some (v, r4) =>
                                  if is_low v
                                  then cont (65536 + (u - 55296) * 1024 + (v - 56320))%N r4
                                  else None
                              | None => None
                              end
                            else None
                        | _ => None
                        end
                      else if is_low u then None
                      else cont u r2
                  | None => None
                  end
                else None
            | [] => None
            end
          else
            match scan_string n r with
            | Some (t, rest) => Some (c :: t, rest)
            | None => None
            end
      end
  end.

(** *** Values *)

Definition is_ws (c : N) : bool :=
  ((c =? 32) || (c =? 9) || (c =? 10) || (c =? 13))%N.

Fixpoint skip_ws (s : str) : str :=
  match s with
  | c :: r => if is_ws c then skip_ws r else s
  | [] => []
  end.

Fixpoint strip_prefix (p s : str) : option str :=
  match p, s with
  | [], _ => Some s
  | a :: p', b :: s' => if (a =? b)%N then strip_prefix p' s' else None
  | _ :: _, [] => None
  end.

Fixpoint parse_value (n : nat) (s : str) : option (json * str) :=
  match n with
  | O => None
  | S n =>
      match skip_ws s with
      | [] => None
      | c :: r =>
          if (c =? ch "{")%N then
            match skip_ws r with
            | c' :: r' =>
                if (c' =? ch "}")%N then Some (JObj [], r')
                else match parse_members n (skip_ws r) with
                     | Some (o, rest) => Some (JObj o, rest)
                     | None => None
                     end
            | [] => None
            end
          else if (c =? ch "[")%N then
            match skip_ws r with
            | c' :: r' =>
                if (c' =? ch "]")%N then Some (JArr [], r')
                else match parse_elements n r with
                     | Some (l, rest) => Some (JArr l, rest)
                     | None => None
                     end
            | [] => None
            end
          else if (c =? dquote)%N then
            match scan_string (S (length r)) r with
            | Some (t, rest) => Some (JStr t, rest)
            | None => None
            end
          else if (c =? ch "t")%N then
            option_map (λ rest, (JBool true, rest)) (strip_prefix (lit "rue") r)
          else if (c =? ch "f")%N then
            option_map (λ rest, (JBool false, rest)) (strip_prefix (lit "alse") r)
          else if (c =? ch "n")%N then
            option_map (λ rest, (JNull, rest)) (strip_prefix (lit "ull") r)
          else
            match scan_literal (c :: r) with
            | Some (l, rest) =>
                if json_literal_ok l then Some (JNum (literal_val l), rest) else None
            | None => None
            end
      end
  end
with parse_elements (n : nat) (s : str) : option (list json * str) :=
  match n with
  | O => None
  | S n =>
      match parse_value n s with
      | Some (v, rest) =>
          match skip_ws rest with
          | c :: r =>
              if (c =? ch ",")%N then
                match parse_elements n r with
                | Some (l, rest') => Some (v :: l, rest')
                | None => None
                end
              else if (c =? ch "]")%N then Some ([v], r)
              else None
          | [] => None
          end
      | None => None
      end
  end
with parse_members (n : nat) (s : str) : option (list (str * json) * str) :=
  match n with
  | O => None
  | S n =>
      match skip_ws s with
      | q :: r0 =>
          if (q =? dquote)%N then
            match scan_string (S (length r0)) r0 with
            | Some (k, r1) =>
                match skip_ws r1 with
                | c :: r2 =>
                    if (c =? ch ":")%N then
                      match parse_value n r2 with
                      | Some (v, r3) =>
                          match skip_ws r3 with
                          | d :: r4 =>
                              if (d =? ch ",")%N then
                                match parse_members n r4 with
                                | Some (o, rest) => Some ((k, v) :: o, rest)
                                | None => None
                                end
                              else if (d =? ch "}")%N then Some ([(k, v)], r4)
                              else None
                          | [] => None
                          end
                      | None => None
                      end
                    else None
                | [] => None
                end
            | None => None
            end
          else None
      | [] => None
      end
  end.

(** Decoding a whole document: one value, then only white space. *)
Definition loads (s : str) : option json :=
  match parse_value (2 * length s + 2) s with
  | Some (v, rest) => match skip_ws rest with [] => Some v | _ => None end
  | None => None
  end.

End Json.

Import Json.

(** ** pydantic: validation of a decoded document against a model

    The default (lax) mode of pydantic 2, on JSON input.  Validation of a model
    visits the fields in declaration order and gathers the line errors of all
    of them; a model is built only when there is none. *)

Module Pydantic.

Inductive loc_item :=
  | LField (name : str)
  | LIndex (i : nat).

Inductive error_type :=
  | json_type        (* the input is not a str, bytes or bytearray *)
  | json_invalid     (* the text is not a JSON document *)
  | model_type       (* an object was expected *)
  | missing          (* a required field is absent *)
  | list_type
  | float_type
  | float_parsing
  | string_type.

Inductive err_input :=
  | InNone
  | InText (s : str)
  | InJson (j : json).

Record line_error := {
  err_type : error_type;
  err_loc : list loc_item;
  err_input_value : err_input
}.

Definition pyexn := exn line_error.

Definition result (A : Type) := (list line_error + A)%type.

Definition fail {A} (t : error_type) (loc : list loc_item) (j : json) : result A :=
  inl [ {| err_type := t; err_loc := loc; err_input_value := InJson j |} ].

(** Applying a validated constructor to one more validated field: the errors
    of both sides are kept, in order. *)
Definition ap {A B} (f : result (A → B)) (x : result A) : result B :=
  match f, x with
  | inr g, inr a => inr (g a)
  | inl e1, inl e2 => inl (e1 ++ e2)
  | inl e1, inr _ => inl e1
  | inr _, inl e2 => inl e2
  end.

Infix "<*>" := ap (at level 61, left associativity).

Definition validator (A : Type) := list loc_item → json → result A.

(** Rust's [str::trim], which pydantic applies before it reads a number from
    a string: the characters with the Unicode property White_Space. *)
Definition is_white_space (c : N) : bool :=
  ((9 <=? c) && (c <=? 13) || (c =? 32)
   || (c =? 133) || (c =? 160) || (c =? 5760)
   || (8192 <=? c) && (c <=? 8202)
   || (c =? 8232) || (c =? 8233) || (c =? 8239) || (c =? 8287)
   || (c =? 12288))%N.

Fixpoint trim_start (s : str) : str :=
  match s with
  | c :: r => if is_white_space c then trim_start r else s
  | [] => []
  end.

Definition trim (s : str) : str := rev (trim_start (rev (trim_start s))).

(** A string as a float: a decimal literal that spans the trimmed string.
    (The library also reads the spellings of the non-finite floats and digits
    grouped by underscores; they are outside this model.) *)
Definition str_as_float (s : str) : option Q :=
  match scan_literal (trim s) with
  | Some (l, []) => Some (literal_val l)
  | _ => None
  end.

(** A [float] field takes a number as it is, a boolean as 0 or 1 and a string
    that reads as a number. *)
Definition v_float : validator Q := λ loc j,
  match j with
  | JNum q => inr q
  | JBool b => inr (if b then 1%Q else 0%Q)
  | JStr s =>
      match str_as_float s with
      | Some q => inr q
      | None => fail float_parsing loc j
      end
  | _ => fail float_type loc j
  end.

(** A [str] field takes a string only. *)
Definition v_str : validator str := λ loc j,
  match j with
  | JStr s => inr s
  | _ => fail string_type loc j
  end.

(** [Optional[T]] takes [null], or what [T] takes. *)
Definition v_optional {A} (v : validator A) : validator (option A) := λ loc j,
  match j with
  | JNull => inr None
  | _ => match v loc j with inr a => inr (Some a) | inl e => inl e end
  end.

Fixpoint v_elements {A} (v : validator A) (loc : list loc_item) (i : nat)
    (l : list json) : result (list A) :=
  match l with
  | [] => inr []
  | j :: r => inr cons <*> v (loc ++ [LIndex i]) j <*> v_elements v loc (S i) r
  end.

(** [List[T]] takes an array whose every element [T] takes. *)
Definition v_list {A} (v : validator A) : validator (list A) := λ loc j,
  match j with
  | JArr l => v_elements v loc 0 l
  | _ => fail list_type loc j
  end.

(** A field without default: its absence is an error of the enclosing object. *)
Definition required {A} (o : list (str * json)) (loc : list loc_item)
    (name : str) (v : validator A) : result A :=
  match obj_get name o with
  | Some j => v (loc ++ [LField name]) j
  | None => fail missing (loc ++ [LField name]) (JObj o)
  end.

(** A field with a default: its absence yields the default. *)
Definition with_default {A} (o : list (str * json)) (loc : list loc_item)
    (name : str) (v : validator A) (d : A) : result A :=
  match obj_get name o with
  | Some j => v (loc ++ [LField name]) j
  | None => inr d
  end.

(** [Model.model_validate_json(data)]: [data] is what the caller passes, which
    may be [None]; the text is decoded, then validated from the root. *)
Definition model_validate_json {A} (title : str) (v : validator A)
    (data : option str) : pyexn + A :=
  match data with
  | None =>
      inl (ValidationError title
             [ {| err_type := json_type; err_loc := []; err_input_value := InNone |} ])
  | Some text =>
      match loads text with
      | None =>
          inl (ValidationError title
                 [ {| err_type := json_invalid; err_loc := [];
                      err_input_value := InText text |} ])
      | Some j =>
          match v [] j with
          | inl errs => inl (ValidationError title errs)
          | inr a => inr a
          end
      end
  end.

End Pydantic.

Import Pydantic.

(** ** The outside world: files, provider, HTTP, page output *)

Module Sys.

(** A JSON schema, as far as the pipeline states one: the shape that
    [model_json_schema()] describes.  In an object, each property says whether
    it is required; properties that the schema does not name are allowed. *)
Inductive schema :=
  | SNumber
  | SString
  | SNullable (s : schema)
  | SArray (s : schema)
  | SObject (props : list (str * schema * bool)).

Fixpoint conforms (s : schema) (j : json) : bool :=
  match s, j with
  | SNumber, JNum _ => true
  | SString, JStr _ => true
  | SNullable _, JNull => true
  | SNullable s', _ => conforms s' j
  | SArray s', JArr l => forallb (conforms s') l
  | SObject props, JObj o =>
      forallb (λ p : str * schema * bool,
                 match obj_get p.1.1 o with
                 | Some v => conforms p.1.2 v
                 | None => negb p.2
                 end) props
  | _, _ => false
  end.

Record Response := {
  status_code : Z;
  text : str
}.

(** A [genai.Client]: it holds the key it was built with. *)
Record Client := {
  api_key : str
}.

(** The services behind the two client libraries.  Each is a function of what
    the script sends; what it answers is not the script's to decide.  A left
    injection is an exception raised inside the call. *)
Record Services := {
  (* client.files.upload(file=path): key, path, content of the file *)
  genai_upload : str → str → option (bytes) → pyexn + str;
  (* client.models.generate_content(model, contents=[prompt, file], config):
     key, model, prompt, uploaded file, response schema; answers response.text *)
  genai_generate : str → str → str → str → option schema → pyexn + option str;
  (* requests.get(url, headers={X-Api-Key}): url, key *)
  http_get : str → option str → pyexn + Response
}.

(** What a Streamlit page or the console shows.  Numbers are kept as numbers:
    their formatting is not modelled. *)
Inductive output :=
  | StError (msg : str) (cause : option pyexn)
  | StWarning (msg : str)
  | StInfo (msg : str)
  | StSuccess (msg : str)
  | StWrite (msg : str)
  | StMetric (label : str) (value : Q)
  | StItem (label : str) (values : list Q) (caption : option str)
  | StJson (data : json)
  | Print (msg : str) (values : list Q).

Inductive event :=
  | TempCreated (path : str)
  | TempWritten (path : str) (data : bytes)
  | Removed (path : str)
  | FilesUpload (path : str)
  | GenerateContent (model : str) (file : str)
  | HttpGet (url : str)
  | Shown (o : output).

(** The state a run can see and change: the files, the names that [tempfile]
    will draw, whether the disk still takes writes, and the calls made so far
    (oldest first). *)
Record World := {
  fs : gmap str (bytes);
  names : list str;
  disk_full : bool;
  trace : list event
}.

Definition log (e : event) (w : World) : World :=
  {| fs := fs w; names := names w; disk_full := disk_full w;
     trace := trace w ++ [e] |}.

Definition set_fs (f : gmap str (bytes)) (w : World) : World :=
  {| fs := f; names := names w; disk_full := disk_full w; trace := trace w |}.

Definition set_names (n : list str) (w : World) : World :=
  {| fs := fs w; names := n; disk_full := disk_full w; trace := trace w |}.

(** Effectful code: a function of the world that returns a value or raises. *)
Definition M (A : Type) := World → (pyexn + A) * World.

Definition ret {A} (a : A) : M A := λ w, (inr a, w).

Definition raise {A} (e : pyexn) : M A := λ w, (inl e, w).

Definition bind {A B} (m : M A) (f : A → M B) : M B := λ w,
  match m w with
  | (inr a, w') => f a w'
  | (inl e, w') => (inl e, w')
  end.

#[global] Instance M_ret : MRet M := @ret.
#[global] Instance M_bind : MBind M := λ A B f m, bind m f.

Definition emit (e : event) : M unit := λ w, (inr tt, log e w).

Definition show (o : output) : M unit := emit (Shown o).

(** Lifting the answer of a service. *)
Definition answer {A} (r : pyexn + A) : M A := λ w, (r, w).

(** [try: m except Exception as e: h e] *)
Definition try_except {A} (m : M A) (h : pyexn → M A) : M A := λ w,
  match m w with
  | (inr a, w') => (inr a, w')
  | (inl e, w') => h e w'
  end.

(** [os.path.exists(path)] *)
Definition path_exists (path : str) : M bool := λ w,
  (inr (bool_decide (is_Some (fs w !! path))), w).

(** [os.remove(path)] of an existing file. *)
Definition remove (path : str) : M unit := λ w,
  (inr tt, log (Removed path) (set_fs (delete path (fs w)) w)).

Definition tempdir : str := lit "/tmp/tmp".

(** The first candidate name that no file bears, as [tempfile] draws them. *)
Fixpoint fresh_name (f : gmap str (bytes)) (suffix : str) (candidates : list str)
    : option (str * list str) :=
  match candidates with
  | [] => None
  | n :: r =>
      let p := tempdir ++ n ++ suffix in
      if bool_decide (is_Some (f !! p)) then fresh_name f suffix r
      else Some (p, r)
  end.

(** [tempfile.NamedTemporaryFile(delete=False, suffix=suffix)]: creates an
    empty file under a fresh name and returns the name. *)
Definition NamedTemporaryFile (suffix : str) : M str := λ w,
  match fresh_name (fs w) suffix (names w) with
  | None =>
      (inl (FileExistsError (lit "No usable temporary file name found")),
       set_names [] w)
  | Some (p, rest) =>
      (inr p, log (TempCreated p) (set_fs (<[p := []]> (fs w)) (set_names rest w)))
  end.

(** [tmp.write(data)] on the open temporary file [path]. *)
Definition write (path : str) (data : bytes) : M unit := λ w,
  if disk_full w then (inl (OSError (lit "No space left on device")), w)
  else (inr tt, log (TempWritten path data) (set_fs (<[path := data]> (fs w)) w)).

(** [with NamedTemporaryFile(delete=False, suffix=...) as tmp: tmp.write(data);
    tmp_path = tmp.name].  Leaving the block closes the file and, with
    [delete=False], keeps it. *)
Definition save_temp (suffix : str) (data : bytes) : M str :=
  tmp ← NamedTemporaryFile suffix;
  write tmp data;;
  ret tmp.

End Sys.

Import Sys.

(** ** Streamlit widgets *)

Module Streamlit.

Record UploadedFile := {
  name : str;
  getvalue : bytes
}.

(** The extension Streamlit compares with the allowed types: the text after
    the last dot, in lower case; none when the name has no dot. *)
Definition extension (filename : str) : option str :=
  match Py.split (ch ".") filename with
  | [] | [_] => None
  | parts => Some (lower (last_part parts))
  end.

(** [st.file_uploader(label, type=types)]: the page hands the script the
    file the user chose only when its extension is one of [types]. *)
Definition file_uploader (types : list str) (chosen : option UploadedFile)
    : option UploadedFile :=
  match chosen with
  | Some f =>
      match extension (name f) with
      | Some e => if bool_decide (e ∈ types) then Some f else None
      | None => None
      end
  | None => None
  end.

End Streamlit.

Import Streamlit.

(** ** app_gemini_only.py *)

Module AppGeminiOnly.

Record FoodItem := {
  name : str;
  quantity_g : Q;
  calories_kcal : Q;
  protein_g : Q;
  carbs_g : Q;
  fat_g : Q;
  reasoning_short : option str
}.

Record NutritionEstimate := {
  items : list FoodItem;
  total_calories_kcal : Q;
  total_protein_g : Q;
  total_carbs_g : Q;
  total_fat_g : Q;
  notes : option str
}.

(** The validators that pydantic derives from the two class bodies: every
    field is required but the two that declare [default=None]. *)
Definition v_FoodItem : validator FoodItem := λ loc j,
  match j with
  | JObj o =>
      inr Build_FoodItem
        <*> required o loc (lit "name") v_str
        <*> required o loc (lit "quantity_g") v_float
        <*> required o loc (lit "calories_kcal") v_float
        <*> required o loc (lit "protein_g") v_float
        <*> required o loc (lit "carbs_g") v_float
        <*> required o loc (lit "fat_g") v_float
        <*> with_default o loc (lit "reasoning_short") (v_optional v_str) None
  | _ => fail model_type loc j
  end.

Definition v_NutritionEstimate : validator NutritionEstimate := λ loc j,
  match j with
  | JObj o =>
      inr Build_NutritionEstimate
        <*> required o loc (lit "items") (v_list v_FoodItem)
        <*> required o loc (lit "total_calories_kcal") v_float
        <*> required o loc (lit "total_protein_g") v_float
        <*> required o loc (lit "total_carbs_g") v_float
        <*> required o loc (lit "total_fat_g") v_float
        <*> with_default o loc (lit "notes") (v_optional v_str) None
  | _ => fail model_type loc j
  end.

(** [NutritionEstimate.model_validate_json] *)
Definition model_validate_json (data : option str) : pyexn + NutritionEstimate :=
  Pydantic.model_validate_json (lit "NutritionEstimate") v_NutritionEstimate data.

(** The shape that [FoodItem.model_json_schema()] and
    [NutritionEstimate.model_json_schema()] describe (titles and descriptions
    left out). *)
Definition FoodItem_schema : schema :=
  SObject [ (lit "name", SString, true);
            (lit "quantity_g", SNumber, true);
            (lit "calories_kcal", SNumber, true);
            (lit "protein_g", SNumber, true);
            (lit "carbs_g", SNumber, true);
            (lit "fat_g", SNumber, true);
            (lit "reasoning_short", SNullable SString, false) ].

Definition model_json_schema : schema :=
  SObject [ (lit "items", SArray FoodItem_schema, true);
            (lit "total_calories_kcal", SNumber, true);
            (lit "total_protein_g", SNumber, true);
            (lit "total_carbs_g", SNumber, true);
            (lit "total_fat_g", SNumber, true);
            (lit "notes", SNullable SString, false) ].

(** [st.secrets["GEMINI_API_KEY"]], and on any failure of that lookup (no
    secrets file, no such key) [os.environ.get("GEMINI_API_KEY")]. *)
Definition GEMINI_API_KEY (secrets : option (gmap str str)) (environ : gmap str str)
    : option str :=
  match secrets with
  | Some s =>
      match s !! lit "GEMINI_API_KEY" with
      | Some k => Some k
      | None => environ !! lit "GEMINI_API_KEY"
      end
  | None => environ !! lit "GEMINI_API_KEY"
  end.

(** The module-level [client]: built only for a key that is non-empty and is
    not the placeholder. *)
Definition client (key : option str) : option Client :=
  match key with
  | Some k =>
      if truthy k && negb (bool_decide (k = lit "YOUR_GEMINI_KEY_HERE"))
      then Some {| api_key := k |}
      else None
  | None => None
  end.

Definition prompt : str := lit "
You are a nutrition expert estimating calories and macros from a meal photo.

TASK:
1. Look at the image and identify each visible food or drink item that a person would reasonably eat or drink.
2. For each item, estimate a realistic portion size in grams.
3. Using typical nutritional values, estimate for EACH item:
   - calories (kcal)
   - protein (g)
   - carbohydrates (g)
   - fat (g)
4. Compute totals by summing over all items.
5. For each item, provide a brief, high-level explanation of the key assumptions.
6. If something is uncertain, make a reasonable assumption and mention it briefly in the explanation or in the overall notes.

CONSTRAINTS:
- Keep explanations concise (no long step-by-step reasoning).
- Use ONLY the provided JSON schema; do not add extra fields.
- If you are unsure about an exact value, pick a reasonable estimate rather than leaving it empty.
".

Definition read_file (path : str) : M (option bytes) := λ w, (inr (fs w !! path), w).

Definition estimate_nutrition_with_gemini (sv : Services) (client : option Client)
    (image_path : str) : M NutritionEstimate :=
  match client with
  | None => raise (ValueError (lit "Gemini API Key not configured."))
  | Some c =>
      emit (FilesUpload image_path);;
      content ← read_file image_path;
      uploaded_file ← answer (genai_upload sv (api_key c) image_path content);
      emit (GenerateContent (lit "gemini-2.5-pro") uploaded_file);;
      response_text ← answer (genai_generate sv (api_key c) (lit "gemini-2.5-pro")
                                prompt uploaded_file (Some model_json_schema));
      answer (model_validate_json response_text)
  end.

Definition truthy_opt (s : option str) : bool :=
  match s with Some t => truthy t | None => false end.

Fixpoint show_items (l : list FoodItem) : M unit :=
  match l with
  | [] => ret tt
  | item :: r =>
      show (StItem (name item)
              [calories_kcal item; quantity_g item; protein_g item; carbs_g item;
               fat_g item]
              (if truthy_opt (reasoning_short item) then reasoning_short item else None));;
      show_items r
  end.

(** The display of a validated estimate (lines 163 to 191). *)
Definition show_estimate (estimate : NutritionEstimate) : M unit :=
  show (StSuccess (lit "Analysis Complete!"));;
  show (StMetric (lit "Calories") (total_calories_kcal estimate));;
  show (StMetric (lit "Protein") (total_protein_g estimate));;
  show (StMetric (lit "Carbs") (total_carbs_g estimate));;
  show (StMetric (lit "Fat") (total_fat_g estimate));;
  (match items estimate with
   | [] => show (StWarning (lit "No items detected."))
   | l => show_items l
   end);;
  if truthy_opt (notes estimate)
  then show (StInfo (lit "**Notes:** " ++ default [] (notes estimate)))
  else ret tt.

(** The [finally] block: [tmp_path] is [None] when the name was never bound. *)
Definition cleanup (tmp_path : option str) : M unit :=
  match tmp_path with
  | Some p =>
      b ← path_exists p;
      if b : bool
      then remove p;; show (StWrite (lit "Cleanup: Temporary file removed."))
      else ret tt
  | None => ret tt
  end.

(** The rest of the [try] body, once [tmp_path] is bound (lines 157 to 191). *)
Definition ask_and_show (sv : Services) (client : option Client) (tmp_path : str)
    : M unit :=
  show (StWrite (lit "Saved temporary file: " ++ tmp_path));;
  show (StWrite (lit "Sending to Gemini for analysis..."));;
  estimate ← estimate_nutrition_with_gemini sv client tmp_path;
  show_estimate estimate.

(** The handler of the Analyze button (lines 152 to 199): the [try] body
    saves the upload, asks for the estimate and shows it; [except Exception]
    shows the error; [finally] removes the file whose name was bound. *)
Definition analyze (sv : Services) (client : option Client)
    (uploaded_file : UploadedFile) : M unit := λ w,
  let suffix := lit "." ++ last_part (Py.split (ch ".") (Streamlit.name uploaded_file)) in
  let '(saved, w1) := save_temp suffix (getvalue uploaded_file) w in
  let '(outcome, w2) :=
    match saved with
    | inr tmp_path => ask_and_show sv client tmp_path w1
    | inl e => (inl e, w1)
    end in
  let '(handled, w3) :=
    match outcome with
    | inl e => show (StError (lit "An error occurred: ") (Some e)) w2
    | inr _ => (inr tt, w2)
    end in
  match cleanup (match saved with inr p => Some p | inl _ => None end) w3 with
  | (inr _, w4) => (handled, w4)
  | (inl e, w4) => (inl e, w4)
  end.

(** One run of the page script: [chosen] is the file in the uploader, if any,
    and [analyze_button] whether the button was pressed.  The title, the
    layout and the preview of the image are display only and left out. *)
Definition main (sv : Services) (client : option Client) (chosen : option UploadedFile)
    (analyze_button : bool) : M unit :=
  match client with
  | None =>
      show (StError (lit "`GEMINI_API_KEY` is missing.") None);;
      show (StInfo (lit "Please set it in `.streamlit/secrets.toml` or as an environment variable."))
  | Some _ =>
      match file_uploader [lit "jpg"; lit "jpeg"; lit "png"; lit "webp"] chosen with
      | Some uploaded_file =>
          if analyze_button
          then show (StWrite (lit "Processing image..."));;
               analyze sv client uploaded_file
          else ret tt
      | None => ret tt
      end
  end.

End AppGeminiOnly.

(** ** requests: URL quoting and the Python conversions the two-step
    pipelines apply to a decoded answer *)

Module Requests.

Definition utf8 (c : N) : list N :=
  (if c <? 128 then [c]
   else if c <? 2048 then [192 + c / 64; 128 + c mod 64]
   else if c <? 65536 then [224 + c / 4096; 128 + (c / 64) mod 64; 128 + c mod 64]
   else [240 + c / 262144; 128 + (c / 4096) mod 64; 128 + (c / 64) mod 64;
         128 + c mod 64])%N.

Definition hex_digit (d : N) : N := (if d <? 10 then 48 + d else 55 + d)%N.

Definition percent (b : N) : str := [ch "%"; hex_digit (b / 16)%N; hex_digit (b mod 16)%N].

(** Letters, digits and [_.-~] are never quoted; nor is the default safe
    character [/]. *)
Definition unreserved (c : N) : bool :=
  ((65 <=? c) && (c <=? 90) || (97 <=? c) && (c <=? 122) || (48 <=? c) && (c <=? 57)
   || (c =? ch "_") || (c =? ch ".") || (c =? ch "-") || (c =? ch "~")
   || (c =? ch "/"))%N.

(** [requests.utils.quote(s)] *)
Definition quote (s : str) : str :=
  flat_map (λ c, if unreserved c then [c] else flat_map percent (utf8 c)) s.

(** [requests.codes.ok] *)
Definition codes_ok : Z := 200.

(** [float(s)] of a string: a decimal literal that spans the stripped string
    (non-finite spellings and underscores are outside the model). *)
Definition float_of_str (s : str) : option Q :=
  match scan_literal (Py.strip s) with
  | Some (l, []) => Some (literal_val l)
  | _ => None
  end.

(** [float(x)] of a decoded value. *)
Definition float (x : json) : pyexn + Q :=
  match x with
  | JNum q => inr q
  | JBool b => inr (if b then 1%Q else 0%Q)
  | JStr s =>
      match float_of_str s with
      | Some q => inr q
      | None => inl (ValueError (lit "could not convert string to float"))
      end
  | _ => inl (TypeError (lit "float() argument must be a string or a real number"))
  end.

(** [x.get(key, default)]: only a [dict] has [get]. *)
Definition get (x : json) (key : str) (d : json) : pyexn + json :=
  match x with
  | JObj o => inr (default d (obj_get key o))
  | _ => inl (AttributeError (lit "object has no attribute 'get'"))
  end.

(** What [for item in x] goes through: the elements of a list, the keys of a
    [dict], the characters of a string; other values are not iterable. *)
Definition iterate (x : json) : pyexn + list json :=
  match x with
  | JArr l => inr l
  | JObj o => inr (map (λ kv : str * json, JStr kv.1) o)
  | JStr s => inr (map (λ c, JStr [c]) s)
  | _ => inl (TypeError (lit "object is not iterable"))
  end.

(** [float(item.get("calories", 0))] *)
Definition item_calories (item : json) : pyexn + Q :=
  match get item (lit "calories") (JNum 0) with
  | inr c => float c
  | inl e => inl e
  end.

(** [sum(float(item.get("calories", 0)) for item in items)]: from 0, each
    term is added on the right, and the first term that raises ends the sum. *)
Fixpoint sum_from (acc : Q) (l : list json) : pyexn + Q :=
  match l with
  | [] => inr acc
  | item :: r =>
      match item_calories item with
      | inr c => sum_from (acc + c)%Q r
      | inl e => inl e
      end
  end.

Definition sum_calories (items : json) : pyexn + Q :=
  match iterate items with
  | inr l => sum_from 0%Q l
  | inl e => inl e
  end.

(** Truthiness of a decoded value, as [if items:] sees it. *)
Definition json_truthy (x : json) : bool :=
  match x with
  | JNull => false
  | JBool b => b
  | JNum q => negb (Qeq_bool q 0)
  | JStr s => truthy s
  | JArr l => match l with [] => false | _ => true end
  | JObj o => match o with [] => false | _ => true end
  end.

Definition api_url : str := lit "https://api.calorieninjas.com/v1/nutrition?query=".

(** The part that [call_calorieninjas] and [get_calories_from_query] share:
    one GET, the status check, the decoded body, its items and their sum. *)
Definition fetch (sv : Services) (key : option str) (message : Response → str)
    (query : str) : M (json * json * Q) :=
  let url := api_url ++ quote query in
  emit (HttpGet url);;
  resp ← answer (http_get sv url key);
  if bool_decide (status_code resp ≠ codes_ok)
  then raise (RuntimeError (message resp))
  else
    data ← answer (match loads (text resp) with
                   | Some d => inr d
                   | None => inl (JSONDecodeError (text resp))
                   end);
    items ← answer (get data (lit "items") (JArr []));
    total_calories ← answer (sum_calories items);
    ret (data, items, total_calories).

End Requests.

Import Requests.

(** ** app.py *)

Module App.

Definition GEMINI_API_KEY (environ : gmap str str) : option str :=
  environ !! lit "GEMINI_API_KEY".

Definition CALORIE_NINJAS_API_KEY (environ : gmap str str) : option str :=
  environ !! lit "CALORIE_NINJAS_API_KEY".

Definition truthy_opt (s : option str) : bool :=
  match s with Some t => truthy t | None => false end.

Definition client (key : option str) : option Client :=
  match key with
  | Some k => if truthy k then Some {| api_key := k |} else None
  | None => None
  end.

Definition prompt : str := dq "
You are helping to estimate calories via the CalorieNinjas API.

Look at this image and identify all visible food and drinks.
Return a single English sentence that could be used as the `query` parameter
for CalorieNinjas, including approximate but realistic quantities and units.

Examples of valid outputs:
- '2 scrambled eggs and 1 slice of white toast and 1 tablespoon butter'
- '1 medium cheeseburger and 1 small serving of french fries and 1 can of cola'

Rules:
- ONLY output the query sentence.
- Do NOT add explanations, labels, bullets, or extra text.
- Do NOT include newlines.
".

(** The query that both two-step variants cut out of the answer:
    [(response.text or "").strip().replace("\n", " ")]. *)
Definition query_of (response_text : option str) : str :=
  Py.replace 10%N (lit " ") (Py.strip (default [] response_text)).

Definition build_food_query_from_image (sv : Services) (client : option Client)
    (image_path : str) : M str :=
  match client with
  | None => raise (AttributeError (lit "'NoneType' object has no attribute 'files'"))
  | Some c =>
      emit (FilesUpload image_path);;
      content ← AppGeminiOnly.read_file image_path;
      uploaded_file ← answer (genai_upload sv (api_key c) image_path content);
      emit (GenerateContent (lit "gemini-2.5-flash") uploaded_file);;
      response_text ← answer (genai_generate sv (api_key c) (lit "gemini-2.5-flash")
                                prompt uploaded_file None);
      let query := query_of response_text in
      if negb (truthy query)
      then raise (RuntimeError (lit "Gemini returned an empty query."))
      else ret query
  end.

Definition call_calorieninjas (sv : Services) (key : option str) (query : str)
    : M (json * Q) :=
  r ← fetch sv key
        (λ resp, lit "CalorieNinjas error " ++ str_of_Z (status_code resp)
                 ++ lit ": " ++ text resp)
        query;
  ret (r.1.1, r.2).

(** The handler of the Estimate button (lines 96 to 134).  The file is saved
    with [delete=False]; no statement of the script removes it.  Of the
    display, the query, the total and the full answer are kept; the listing
    of the items is left out. *)
Definition estimate_button (sv : Services) (environ : gmap str str)
    (uploaded_image : option UploadedFile) : M unit :=
  match uploaded_image with
  | None => show (StWarning (lit "Please upload an image first."))
  | Some image =>
      if negb (truthy_opt (GEMINI_API_KEY environ)
               && truthy_opt (CALORIE_NINJAS_API_KEY environ))
      then show (StError
                   (lit "Please configure both GEMINI_API_KEY and CALORIE_NINJAS_API_KEY.")
                   None)
      else
        try_except
          (tmp_path ← save_temp (lit ".png") (getvalue image);
           query ← build_food_query_from_image sv (client (GEMINI_API_KEY environ)) tmp_path;
           show (StWrite query);;
           r ← call_calorieninjas sv (CALORIE_NINJAS_API_KEY environ) query;
           show (StMetric (lit "Total") r.2);;
           show (StJson r.1))
          (λ e, show (StError (lit "Error: ") (Some e)))
  end.

(** One run of the page script. *)
Definition page (sv : Services) (environ : gmap str str) (chosen : option UploadedFile)
    (button : bool) : M unit :=
  (if truthy_opt (GEMINI_API_KEY environ) then ret tt
   else show (StError (lit "GEMINI_API_KEY is not set in environment variables.") None));;
  (if truthy_opt (CALORIE_NINJAS_API_KEY environ) then ret tt
   else show (StError (lit "CALORIE_NINJAS_API_KEY is not set in environment variables.")
                None));;
  let uploaded_image := file_uploader [lit "png"; lit "jpg"; lit "jpeg"] chosen in
  if button then estimate_button sv environ uploaded_image else ret tt.

End App.

(** ** main.py *)

Module Main.

(** The two defaults that the script passes to [os.environ.get].  The source
    spells out two non-empty keys; their characters are not repeated here. *)
Definition default_gemini_key : str := lit "AIza-key-in-source".
Definition default_calorie_ninjas_key : str := lit "calorieninjas-key-in-source".

Definition GEMINI_API_KEY (environ : gmap str str) : str :=
  default default_gemini_key (environ !! lit "GEMINI_API_KEY").

Definition CALORIE_NINJAS_API_KEY (environ : gmap str str) : str :=
  default default_calorie_ninjas_key (environ !! lit "CALORIE_NINJAS_API_KEY").

(** The module body (lines 17 to 26): the two checks, then the client. *)
Definition client (environ : gmap str str) : pyexn + Client :=
  if negb (truthy (GEMINI_API_KEY environ))
  then inl (RuntimeError (lit "Please set GEMINI_API_KEY environment variable."))
  else if negb (truthy (CALORIE_NINJAS_API_KEY environ))
  then inl (RuntimeError (lit "Please set CALORIE_NINJAS_API_KEY environment variable."))
  else inr {| api_key := GEMINI_API_KEY environ |}.

Definition build_food_query_from_image (sv : Services) (client : Client)
    (image_path : str) : M str :=
  emit (FilesUpload image_path);;
  content ← AppGeminiOnly.read_file image_path;
  uploaded_file ← answer (genai_upload sv (api_key client) image_path content);
  emit (GenerateContent (lit "gemini-3-pro") uploaded_file);;
  response_text ← answer (genai_generate sv (api_key client) (lit "gemini-3-pro")
                            App.prompt uploaded_file None);
  let query := App.query_of response_text in
  if negb (truthy query)
  then raise (RuntimeError (lit "Gemini returned an empty query. Try another image or prompt."))
  else ret query.

Definition get_calories_from_query (sv : Services) (environ : gmap str str)
    (query : str) : M (Q * json) :=
  r ← fetch sv (Some (CALORIE_NINJAS_API_KEY environ))
        (λ resp, lit "CalorieNinjas error: " ++ str_of_Z (status_code resp)
                 ++ lit " " ++ text resp)
        query;
  ret (r.2, r.1.2).

Definition image_path : str := lit "images/image3.png".

(** [main()]: the listing of the items is display only and left out. *)
Definition main (sv : Services) (environ : gmap str str) (client : Client) : M unit :=
  b ← path_exists image_path;
  if negb b then raise (FileNotFoundError (lit "Image not found: " ++ image_path))
  else
    show (Print (lit "Analyzing image: " ++ image_path) []);;
    query ← build_food_query_from_image sv client image_path;
    show (Print (lit "Gemini food query: " ++ query) []);;
    r ← get_calories_from_query sv environ query;
    (if negb (json_truthy r.2)
     then show (Print (lit "No food items returned from CalorieNinjas.") [])
     else ret tt);;
    show (Print (lit "Estimated total calories: ") [r.1]);;
    show (StJson r.2).

(** The whole script: the module body, then [main()]. *)
Definition script (sv : Services) (environ : gmap str str) : M unit :=
  c ← answer (client environ);
  main sv environ c.

End Main.

(** ** What the claims speak of *)

Module Spec.

(** The calories an item contributes, in the words of the claim: its
    [calories] field, and 0 when the field is missing. *)
Definition calories_or_zero (item : json) : Q :=
  match item with
  | JObj o =>
      match obj_get (lit "calories") o with
      | Some (JNum q) => q
      | _ => 0%Q
      end
  | _ => 0%Q
  end.

(** The sum over the items of what each contributes. *)
Fixpoint total_of (l : list json) : Q :=
  match l with
  | [] => 0%Q
  | item :: r => (calories_or_zero item + total_of r)%Q
  end.

(** An item of a nutrition answer: an object whose [calories], when present,
    is a number. *)
Definition item_ok (item : json) : bool :=
  match item with
  | JObj o =>
      match obj_get (lit "calories") o with
      | None | Some (JNum _) => true
      | _ => false
      end
  | _ => false
  end.

(** How a response value stands for a field of the result.  [F] says which
    number a value stands for. *)
Section Reading.
Variable F : json → Q → Prop.

Definition field {A} (R : json → A → Prop) (o : list (str * json)) (k : str) (a : A)
    : Prop :=
  ∃ j, obj_get k o = Some j ∧ R j a.

(** An optional text: absent or [null] for [None], a string for itself. *)
Definition optional_text (j : option json) (s : option str) : Prop :=
  match j with
  | None | Some JNull => s = None
  | Some (JStr t) => s = Some t
  | Some _ => False
  end.

Definition item_of (j : json) (it : AppGeminiOnly.FoodItem) : Prop :=
  ∃ o, j = JObj o
    ∧ field (λ v s, v = JStr s) o (lit "name") (AppGeminiOnly.name it)
    ∧ field F o (lit "quantity_g") (AppGeminiOnly.quantity_g it)
    ∧ field F o (lit "calories_kcal") (AppGeminiOnly.calories_kcal it)
    ∧ field F o (lit "protein_g") (AppGeminiOnly.protein_g it)
    ∧ field F o (lit "carbs_g") (AppGeminiOnly.carbs_g it)
    ∧ field F o (lit "fat_g") (AppGeminiOnly.fat_g it)
    ∧ optional_text (obj_get (lit "reasoning_short") o) (AppGeminiOnly.reasoning_short it).

Definition estimate_of (j : json) (e : AppGeminiOnly.NutritionEstimate) : Prop :=
  ∃ o l, j = JObj o
    ∧ obj_get (lit "items") o = Some (JArr l)
    ∧ Forall2 item_of l (AppGeminiOnly.items e)
    ∧ field F o (lit "total_calories_kcal") (AppGeminiOnly.total_calories_kcal e)
    ∧ field F o (lit "total_protein_g") (AppGeminiOnly.total_protein_g e)
    ∧ field F o (lit "total_carbs_g") (AppGeminiOnly.total_carbs_g e)
    ∧ field F o (lit "total_fat_g") (AppGeminiOnly.total_fat_g e)
    ∧ optional_text (obj_get (lit "notes") o) (AppGeminiOnly.notes e).
End Reading.

(** A value stands for exactly the number it is. *)
Definition same_number (j : json) (q : Q) : Prop := j = JNum q.

(** The numbers that lax validation reads: a number is itself, a boolean is
    0 or 1, a string is the number it spells. *)
Definition read_number (j : json) (q : Q) : Prop :=
  match j with
  | JNum q' => q = q'
  | JBool b => q = if b then 1%Q else 0%Q
  | JStr s => str_as_float s = Some q
  | _ => False
  end.

(** A response that omits a required field, of the estimate or of one of its
    items. *)
Definition lacks (keys : list str) (o : list (str * json)) : bool :=
  existsb (λ k, match obj_get k o with None => true | Some _ => false end) keys.

Definition item_keys : list str :=
  [lit "name"; lit "quantity_g"; lit "calories_kcal"; lit "protein_g"; lit "carbs_g";
   lit "fat_g"].

Definition estimate_keys : list str :=
  [lit "items"; lit "total_calories_kcal"; lit "total_protein_g"; lit "total_carbs_g";
   lit "total_fat_g"].

Definition omits_required (j : json) : bool :=
  match j with
  | JObj o =>
      lacks estimate_keys o
      || match obj_get (lit "items") o with
         | Some (JArr l) =>
             existsb (λ item, match item with
                              | JObj oi => lacks item_keys oi
                              | _ => false
                              end) l
         | _ => false
         end
  | _ => false
  end.

(** The line errors hold one of type [missing]. *)
Definition reports_missing (errs : list line_error) : Prop :=
  Exists (λ le, err_type le = missing) errs.

(** The estimate that a JSON document spells, and the document. *)
Definition text_json (s : option str) : json :=
  match s with Some t => JStr t | None => JNull end.

Definition item_json (it : AppGeminiOnly.FoodItem) : json :=
  JObj [ (lit "name", JStr (AppGeminiOnly.name it));
         (lit "quantity_g", JNum (AppGeminiOnly.quantity_g it));
         (lit "calories_kcal", JNum (AppGeminiOnly.calories_kcal it));
         (lit "protein_g", JNum (AppGeminiOnly.protein_g it));
         (lit "carbs_g", JNum (AppGeminiOnly.carbs_g it));
         (lit "fat_g", JNum (AppGeminiOnly.fat_g it));
         (lit "reasoning_short", text_json (AppGeminiOnly.reasoning_short it)) ].

Definition estimate_json (e : AppGeminiOnly.NutritionEstimate) : json :=
  JObj [ (lit "items", JArr (map item_json (AppGeminiOnly.items e)));
         (lit "total_calories_kcal", JNum (AppGeminiOnly.total_calories_kcal e));
         (lit "total_protein_g", JNum (AppGeminiOnly.total_protein_g e));
         (lit "total_carbs_g", JNum (AppGeminiOnly.total_carbs_g e));
         (lit "total_fat_g", JNum (AppGeminiOnly.total_fat_g e));
         (lit "notes", text_json (AppGeminiOnly.notes e)) ].

(** A failed validation that reports a missing field, and the rule that a
    validation never fails without a line error. *)
Definition fails_missing {A} (r : result A) : Prop :=
  match r with
  | inl errs => reports_missing errs
  | inr _ => False
  end.

Definition never_silent {A} (r : result A) : Prop :=
  match r with
  | inl [] => False
  | _ => True
  end.

(** Code that touches no file and only adds to the trace. *)
Definition quiet {A} (m : M A) : Prop :=
  ∀ w, fs (m w).2 = fs w ∧ ∃ evs, trace (m w).2 = trace w ++ evs.

End Spec.


(** ** Stub services and a starting world, for concrete runs *)

Definition stub (upload : pyexn + str) (answer : pyexn + option str)
    (http : pyexn + Response) : Services :=
  {| genai_upload := λ _ _ _, upload;
     genai_generate := λ _ _ _ _ _, answer;
     http_get := λ _ _, http |}.

Definition no_http : pyexn + Response := inl (External (lit "ConnectionError") []).

Definition says (text : str) : Services :=
  stub (inr (lit "files/abc")) (inr (Some text)) no_http.

Definition w0 : World :=
  {| fs := ∅; names := [lit "k3x9"; lit "p0q1"]; disk_full := false; trace := [] |}.

Definition some_client : Client := {| api_key := lit "key" |}.

Definition meal_path : str := lit "/tmp/meal.png".

(** Answers of the provider.  Apostrophes stand for double quotes. *)
Definition eggs_text : str := dq
  "{'items': [{'name': '2 eggs', 'quantity_g': 100, 'calories_kcal': 155.5, 'protein_g': 13, 'carbs_g': 1.1, 'fat_g': 11, 'reasoning_short': 'two large eggs'}, {'name': '1 toast', 'quantity_g': 30, 'calories_kcal': 80, 'protein_g': 3, 'carbs_g': 15, 'fat_g': 1}], 'total_calories_kcal': 250, 'total_protein_g': 18, 'total_carbs_g': 20, 'total_fat_g': 12, 'notes': null}".

Definition coerced_text : str := dq
  "{'items': [], 'total_calories_kcal': '250', 'total_protein_g': true, 'total_carbs_g': 20, 'total_fat_g': 12}".

Definition negative_text : str := dq
  "{'items': [{'name': 'cake', 'quantity_g': -100, 'calories_kcal': -350, 'protein_g': 4, 'carbs_g': 50, 'fat_g': 15, 'reasoning_short': null}], 'total_calories_kcal': -350, 'total_protein_g': 4, 'total_carbs_g': 50, 'total_fat_g': 15, 'notes': null}".

Definition negative_estimate : AppGeminiOnly.NutritionEstimate :=
  {| AppGeminiOnly.items :=
       [ {| AppGeminiOnly.name := lit "cake";
            AppGeminiOnly.quantity_g := Qmake (-100) 1;
            AppGeminiOnly.calories_kcal := Qmake (-350) 1;
            AppGeminiOnly.protein_g := Qmake 4 1;
            AppGeminiOnly.carbs_g := Qmake 50 1;
            AppGeminiOnly.fat_g := Qmake 15 1;
            AppGeminiOnly.reasoning_short := None |} ];
     AppGeminiOnly.total_calories_kcal := Qmake (-350) 1;
     AppGeminiOnly.total_protein_g := Qmake 4 1;
     AppGeminiOnly.total_carbs_g := Qmake 50 1;
     AppGeminiOnly.total_fat_g := Qmake 15 1;
     AppGeminiOnly.notes := None |}.

Definition missing_text : str := dq
  "{'items': [{'name': 'rice', 'quantity_g': 150, 'protein_g': 4, 'carbs_g': 45, 'fat_g': 0.4}], 'total_calories_kcal': 195, 'total_protein_g': 4, 'total_carbs_g': 45, 'total_fat_g': 0.4}".

(** An answer of the nutrition database: the second item has no calories,
    and the body carries a total of its own. *)
Definition ninjas_body : str := dq
  "{'items': [{'name': 'egg', 'calories': 78}, {'name': 'toast'}, {'name': 'butter', 'calories': 35.5}], 'total': 9999}".

Definition ninjas_data : list (str * json) :=
  match loads ninjas_body with Some (JObj o) => o | _ => [] end.

Definition ninjas_items : list json :=
  match obj_get (lit "items") ninjas_data with Some (JArr l) => l | _ => [] end.

Definition ninjas : Services :=
  stub (inr (lit "files/abc")) (inr (Some (lit "1 egg and 1 toast with butter")))
    (inr {| status_code := 200; text := ninjas_body |}).

Definition both_keys : gmap str str :=
  {[ lit "GEMINI_API_KEY" := lit "g-key"; lit "CALORIE_NINJAS_API_KEY" := lit "n-key" ]}.

Definition meal_jpg : UploadedFile :=
  {| Streamlit.name := lit "meal.jpg"; getvalue := [Byte.xff; Byte.xd8] |}.

Definition empty_png : UploadedFile :=
  {| Streamlit.name := lit "meal.png"; getvalue := [] |}.

Definition anim_gif : UploadedFile :=
  {| Streamlit.name := lit "anim.gif"; getvalue := [Byte.x47; Byte.x49; Byte.x46] |}.

(** ** What a run shows and sends *)

Module Behaviour.

(** The world after the events [evs] were recorded. *)
Definition extend (evs : list event) (w : World) : World :=
  {| fs := fs w; names := names w; disk_full := disk_full w; trace := trace w ++ evs |}.

Definition is_shown (e : event) : bool :=
  match e with Shown _ => true | _ => false end.

(** The row of one item on the gemini-only page. *)
Definition item_row (item : AppGeminiOnly.FoodItem) : output :=
  StItem (AppGeminiOnly.name item)
    [AppGeminiOnly.calories_kcal item; AppGeminiOnly.quantity_g item;
     AppGeminiOnly.protein_g item; AppGeminiOnly.carbs_g item; AppGeminiOnly.fat_g item]
    (if AppGeminiOnly.truthy_opt (AppGeminiOnly.reasoning_short item)
     then AppGeminiOnly.reasoning_short item else None).

Definition is_row (e : event) : bool :=
  match e with Shown (StItem _ _ _) => true | _ => false end.

Definition is_metric (e : event) : bool :=
  match e with Shown (StMetric _ _) => true | _ => false end.

(** A Unicode scalar value: a code point that is not a surrogate. *)
Definition scalar (c : N) : bool :=
  ((c <? 55296) || (57344 <=? c) && (c <? 1114112))%N.

(** A character that may stand in a quoted query. *)
Definition url_safe (c : N) : bool := (unreserved c || (c =? ch "%"))%N.

Definition sum_list (cs : list Q) : Q := fold_right Qplus 0%Q cs.

(** The outside requests among the events. *)
Definition is_request (e : event) : bool :=
  match e with
  | FilesUpload _ | GenerateContent _ _ | HttpGet _ => true
  | _ => false
  end.

(** What [show_estimate] puts on the page, in order. *)
Definition display (e : AppGeminiOnly.NutritionEstimate) : list output :=
  [ StSuccess (lit "Analysis Complete!");
    StMetric (lit "Calories") (AppGeminiOnly.total_calories_kcal e);
    StMetric (lit "Protein") (AppGeminiOnly.total_protein_g e);
    StMetric (lit "Carbs") (AppGeminiOnly.total_carbs_g e);
    StMetric (lit "Fat") (AppGeminiOnly.total_fat_g e) ]
  ++ match AppGeminiOnly.items e with
     | [] => [StWarning (lit "No items detected.")]
     | l => map item_row l
     end
  ++ if AppGeminiOnly.truthy_opt (AppGeminiOnly.notes e)
     then [StInfo (lit "**Notes:** " ++ default [] (AppGeminiOnly.notes e))]
     else [].

(** What happens on the gemini-only page between the upload request and the
    cleanup, as the provider answers: the generation request when the upload
    succeeded, then the estimate, or the error that ended the attempt. *)
Definition gemini_answer_events (sv : Services) (c : Client) (path : str)
    (content : option bytes) : list event :=
  match genai_upload sv (api_key c) path content with
  | inl x => [Shown (StError (lit "An error occurred: ") (Some x))]
  | inr f =>
      GenerateContent (lit "gemini-2.5-pro") f
      :: match genai_generate sv (api_key c) (lit "gemini-2.5-pro") AppGeminiOnly.prompt f
                 (Some AppGeminiOnly.model_json_schema) with
         | inl x => [Shown (StError (lit "An error occurred: ") (Some x))]
         | inr t =>
             match AppGeminiOnly.model_validate_json t with
             | inl x => [Shown (StError (lit "An error occurred: ") (Some x))]
             | inr est => map Shown (display est)
             end
         end
  end.

(** What the nutrition database yields for a query: the answer to the one
    GET, checked and summed as [call_calorieninjas] and
    [get_calories_from_query] do. *)
Definition database_answer (sv : Services) (key : option str)
    (message : Response → str) (query : str) : pyexn + (json * json * Q) :=
  match http_get sv (api_url ++ quote query) key with
  | inl x => inl x
  | inr resp =>
      if bool_decide (status_code resp ≠ codes_ok) then inl (RuntimeError (message resp))
      else
        match loads (text resp) with
        | None => inl (JSONDecodeError (text resp))
        | Some data =>
            match get data (lit "items") (JArr []) with
            | inl x => inl x
            | inr items =>
                match sum_calories items with
                | inl x => inl x
                | inr total => inr (data, items, total)
                end
            end
        end
  end.

Definition app_message (resp : Response) : str :=
  lit "CalorieNinjas error " ++ str_of_Z (status_code resp) ++ lit ": " ++ text resp.

Definition main_message (resp : Response) : str :=
  lit "CalorieNinjas error: " ++ str_of_Z (status_code resp) ++ lit " " ++ text resp.

(** What happens on the page of app.py after the upload request, as the two
    services answer. *)
Definition app_answer_events (sv : Services) (g k : str) (path : str)
    (content : option bytes) : list event :=
  match genai_upload sv g path content with
  | inl x => [Shown (StError (lit "Error: ") (Some x))]
  | inr f =>
      GenerateContent (lit "gemini-2.5-flash") f
      :: match genai_generate sv g (lit "gemini-2.5-flash") App.prompt f None with
         | inl x => [Shown (StError (lit "Error: ") (Some x))]
         | inr t =>
             if truthy (Py.strip (default [] t)) then
               Shown (StWrite (App.query_of t))
               :: HttpGet (api_url ++ quote (App.query_of t))
               :: match database_answer sv (Some k) app_message (App.query_of t) with
                  | inl x => [Shown (StError (lit "Error: ") (Some x))]
                  | inr r => [Shown (StMetric (lit "Total") r.2); Shown (StJson r.1.1)]
                  end
             else [Shown (StError (lit "Error: ")
                            (Some (RuntimeError (lit "Gemini returned an empty query."))))]
         end
  end.

(** The members that the two models declare. *)
Definition item_fields : list str := Spec.item_keys ++ [lit "reasoning_short"].

Definition estimate_fields : list str := Spec.estimate_keys ++ [lit "notes"].

(** A failed validation that holds the line error [le]. *)
Definition reports {A} (le : line_error) (r : result A) : Prop :=
  match r with
  | inl errs => le ∈ errs
  | inr _ => False
  end.

Definition missing_at (loc : list loc_item) (o : list (str * json)) : line_error :=
  {| err_type := missing; err_loc := loc; err_input_value := InJson (JObj o) |}.

End Behaviour.

(** ** More fixtures *)

Definition w_full : World :=
  {| fs := ∅; names := [lit "k3x9"; lit "p0q1"]; disk_full := true; trace := [] |}.

(** An answer of the database whose calories are a string, a boolean, then
    [null], then a number. *)
Definition mixed_body : str := dq
  "{'items': [{'calories': '78.5'}, {'calories': true}, {'calories': null}, {'calories': 5}]}".

Definition mixed_data : list (str * json) :=
  match loads mixed_body with Some (JObj o) => o | _ => [] end.

Definition mixed_items : list json :=
  match obj_get (lit "items") mixed_data with Some (JArr l) => l | _ => [] end.

Definition mixed_response : Response := {| status_code := 200; text := mixed_body |}.

Definition mixed : Services :=
  stub (inr (lit "files/abc")) (inr (Some (lit "1 egg"))) (inr mixed_response).

Definition html_response : Response :=
  {| status_code := 200; text := lit "<html>Service unavailable</html>" |}.

Definition html : Services :=
  stub (inr (lit "files/abc")) (inr (Some (lit "1 egg"))) (inr html_response).

(** An accepted answer, and the members that a provider might add. *)
Definition plain_data : list (str * json) :=
  match loads negative_text with Some (JObj o) => o | _ => [] end.

Definition undeclared : list (str * json) :=
  [ (lit "confidence", JNum (Qmake 9 10)); (lit "model", JStr (lit "gemini")) ].

Definition spaced_answer : Services :=
  stub (inr (lit "files/abc"))
    (inr (Some [32; 10; 50; 32; 101; 103; 103; 115; 10; 116; 111; 97; 115; 116; 32; 10]%N))
    no_http.

(** * Properties *)

(** ** Running effectful code *)

Ltac run :=
  unfold mbind, M_bind, mret, M_ret, bind, ret, raise, emit, show, answer,
    try_except, AppGeminiOnly.read_file in *; simpl in *.

Lemma trace_log e w : trace (log e w) = trace w ++ [e].
Proof. reflexivity. Qed.

Lemma fs_log e w : fs (log e w) = fs w.
Proof. reflexivity. Qed.

(** ** The credential guard of [estimate_nutrition_with_gemini] *)

Lemma client_configured key :
  AppGeminiOnly.client key = None
  ↔ key = None ∨ key = Some [] ∨ key = Some (lit "YOUR_GEMINI_KEY_HERE").
Proof.
  unfold AppGeminiOnly.client. destruct key as [k|]; [|naive_solver].
  destruct k as [|c k]; [naive_solver|].
  unfold truthy. rewrite andb_true_l.
  case_bool_decide as Hk; unfold negb.
  - split; [intros _|done]. right; right. by rewrite Hk.
  - split; [done|]. intros [?|[?|?]]; congruence.
Qed.

(** C2. Without a client the call raises the configuration error at once:
    the world, and so the trace of outside calls, is untouched.  With a
    client the first thing that happens is the upload, and an exception that
    leaves the call was raised by the upload, by the generation request or by
    the validation of the answer, never by the guard. *)
Theorem estimate_configuration_guard (sv : Services) (image_path : str) (w : World) :
  AppGeminiOnly.estimate_nutrition_with_gemini sv None image_path w
    = (inl (ValueError (lit "Gemini API Key not configured.")), w)
  ∧ ∀ c : Client,
      let out := AppGeminiOnly.estimate_nutrition_with_gemini sv (Some c) image_path w in
      (∃ rest, trace out.2 = trace w ++ FilesUpload image_path :: rest)
      ∧ ∀ e, out.1 = inl e →
          genai_upload sv (api_key c) image_path (fs w !! image_path) = inl e
          ∨ (∃ f, genai_generate sv (api_key c) (lit "gemini-2.5-pro")
                    AppGeminiOnly.prompt f (Some AppGeminiOnly.model_json_schema) = inl e)
          ∨ ∃ errs, e = ValidationError (lit "NutritionEstimate") errs.
Proof.
  split; [reflexivity|]. intros c out. subst out.
  unfold AppGeminiOnly.estimate_nutrition_with_gemini. run.
  destruct (genai_upload sv (api_key c) image_path (fs w !! image_path)) as [e0|f] eqn:Hup;
    simpl.
  { split; [by exists []|]. intros e [= <-]. by left. }
  destruct (genai_generate sv (api_key c) (lit "gemini-2.5-pro") AppGeminiOnly.prompt f
              (Some AppGeminiOnly.model_json_schema)) as [e1|t] eqn:Hgen; simpl.
  { split; [eexists [_]; by rewrite <- app_assoc|]. intros e [= <-]. right; left.
    by exists f. }
  split; [eexists [_]; by rewrite <- app_assoc|]. intros e He. right; right.
  unfold AppGeminiOnly.model_validate_json, Pydantic.model_validate_json in He.
  destruct t as [text|]; [|naive_solver].
  destruct (loads text) as [j|]; [|naive_solver].
  destruct (AppGeminiOnly.v_NutritionEstimate [] j); naive_solver.
Qed.

(** ** The credential checks of main.py *)

Lemma truthy_false (s : str) : truthy s = false ↔ s = [].
Proof. destruct s; naive_solver. Qed.

(** C10, as the code has it. [os.environ.get(name, default)] yields the
    default only when the variable is unset: a variable that is set to the
    empty string yields the empty string, and the check raises.  So the
    client is built whenever neither variable is set to the empty string, in
    particular when neither is set, and the [RuntimeError] is raised exactly
    when one of them is set to the empty string. *)
Theorem main_credential_checks (environ : gmap str str) :
  (environ !! lit "GEMINI_API_KEY" = None
   → environ !! lit "CALORIE_NINJAS_API_KEY" = None
   → Main.client environ = inr {| api_key := Main.default_gemini_key |})
  ∧ ((∃ e, Main.client environ = inl e)
     ↔ environ !! lit "GEMINI_API_KEY" = Some []
       ∨ environ !! lit "CALORIE_NINJAS_API_KEY" = Some [])
  ∧ ∀ e, Main.client environ = inl e → ∃ msg, e = RuntimeError msg.
Proof.
  unfold Main.client, Main.GEMINI_API_KEY, Main.CALORIE_NINJAS_API_KEY.
  destruct (environ !! lit "GEMINI_API_KEY") as [[|a g]|];
    destruct (environ !! lit "CALORIE_NINJAS_API_KEY") as [[|b k]|]; simpl;
    (split; [intros; congruence|split; [split|intros e [= <-]; eauto]]);
    try (intros _; eexists; reflexivity); try (intros _; auto; fail);
    try (intros [e [=]]); try (intros [[=]|[=]]).
Qed.

(** The claim fails when the variable is set but empty. *)
Lemma main_empty_key_raises :
  Main.client {[ lit "GEMINI_API_KEY" := [] ]}
  = inl (RuntimeError (lit "Please set GEMINI_API_KEY environment variable.")).
Proof. vm_compute. reflexivity. Qed.

(** ** The food query *)

Lemma replace_nil_inv (c : N) (new s : str) :
  new ≠ [] → Py.replace c new s = [] → s = [].
Proof.
  intros Hnew. destruct s as [|x r]; [done|]. simpl.
  destruct (x =? c)%N; [|done].
  destruct new; [done|]. discriminate.
Qed.

Lemma replace_not_elem (c : N) (new s : str) :
  c ∉ new → c ∉ Py.replace c new s.
Proof.
  intros Hnew. induction s as [|x r IH]; simpl.
  - apply not_elem_of_nil.
  - rewrite elem_of_app. intros [Hin|Hin]; [|by apply IH].
    destruct (N.eqb_spec x c) as [->|Hne]; [done|].
    apply list_elem_of_singleton in Hin. congruence.
Qed.

Lemma query_of_truthy (t : option str) :
  truthy (App.query_of t) = truthy (Py.strip (default [] t)).
Proof.
  unfold App.query_of. destruct (Py.strip (default [] t)) as [|x r] eqn:Hs; [done|].
  simpl. destruct (x =? 10)%N; reflexivity.
Qed.

Lemma query_of_one_line (t : option str) :
  truthy (App.query_of t) = true → App.query_of t ≠ [] ∧ 10%N ∉ App.query_of t.
Proof.
  intros Ht. split.
  - intros Hq. by rewrite Hq in Ht.
  - apply replace_not_elem. vm_compute. intros Hin.
    apply list_elem_of_singleton in Hin. discriminate.
Qed.

(** C8. Whatever the provider answers, [build_food_query_from_image] (in
    app.py and in main.py) returns only a query that is non-empty and holds
    no line feed.  When the upload and the generation request succeed it
    raises [RuntimeError] if the answer is absent or blank, and returns the
    stripped answer with its line feeds turned into spaces otherwise. *)
Theorem build_food_query_one_line (sv : Services) (image_path : str) (w : World) :
  (∀ client q,
     (App.build_food_query_from_image sv client image_path w).1 = inr q
     → q ≠ [] ∧ 10%N ∉ q)
  ∧ (∀ c q,
       (Main.build_food_query_from_image sv c image_path w).1 = inr q
       → q ≠ [] ∧ 10%N ∉ q)
  ∧ ∀ c f t,
      genai_upload sv (api_key c) image_path (fs w !! image_path) = inr f
      → (genai_generate sv (api_key c) (lit "gemini-2.5-flash") App.prompt f None = inr t
         → (App.build_food_query_from_image sv (Some c) image_path w).1
           = if truthy (Py.strip (default [] t))
             then inr (App.query_of t)
             else inl (RuntimeError (lit "Gemini returned an empty query.")))
        ∧ (genai_generate sv (api_key c) (lit "gemini-3-pro") App.prompt f None = inr t
           → (Main.build_food_query_from_image sv c image_path w).1
             = if truthy (Py.strip (default [] t))
               then inr (App.query_of t)
               else inl (RuntimeError
                           (lit "Gemini returned an empty query. Try another image or prompt."))).
Proof.
  split; [|split].
  - intros [c|] q; unfold App.build_food_query_from_image; run; [|done].
    destruct (genai_upload _ _ _ _) as [e|f]; simpl; [done|].
    destruct (genai_generate _ _ _ _ _ _) as [e|t]; simpl; [done|].
    destruct (truthy (App.query_of t)) eqn:Ht; simpl; [|done].
    intros [= <-]. by apply query_of_one_line.
  - intros c q; unfold Main.build_food_query_from_image; run.
    destruct (genai_upload _ _ _ _) as [e|f]; simpl; [done|].
    destruct (genai_generate _ _ _ _ _ _) as [e|t]; simpl; [done|].
    destruct (truthy (App.query_of t)) eqn:Ht; simpl; [|done].
    intros [= <-]. by apply query_of_one_line.
  - intros c f t Hup. split; intros Hgen.
    + unfold App.build_food_query_from_image; run. rewrite Hup; simpl.
      rewrite Hgen; simpl. rewrite query_of_truthy.
      by destruct (truthy (Py.strip (default [] t))).
    + unfold Main.build_food_query_from_image; run. rewrite Hup; simpl.
      rewrite Hgen; simpl. rewrite query_of_truthy.
      by destruct (truthy (Py.strip (default [] t))).
Qed.

(** ** The total of the nutrition answer *)

Lemma sum_from_total (l : list json) (acc : Q) :
  forallb Spec.item_ok l = true
  → ∃ t, sum_from acc l = inr t ∧ (t == acc + Spec.total_of l)%Q.
Proof.
  revert acc. induction l as [|item r IH]; intros acc Hok; simpl in *.
  - exists acc. split; [done|]. ring.
  - apply andb_true_iff in Hok as [Hitem Hr].
    assert (item_calories item = inr (Spec.calories_or_zero item)) as ->.
    { unfold item_calories, Spec.calories_or_zero, Spec.item_ok in *.
      destruct item as [| | | | |o]; try done. simpl.
      destruct (obj_get (lit "calories") o) as [[]|]; try done. }
    destruct (IH (acc + Spec.calories_or_zero item)%Q Hr) as (t & Ht & Heq).
    exists t. split; [done|]. rewrite Heq. ring.
Qed.

Lemma fetch_total (sv : Services) (key : option str) (message : Response → str)
    (query : str) (w : World) (resp : Response) (o : list (str * json)) (l : list json) :
  http_get sv (api_url ++ quote query) key = inr resp
  → status_code resp = 200
  → loads (text resp) = Some (JObj o)
  → default (JArr []) (obj_get (lit "items") o) = JArr l
  → forallb Spec.item_ok l = true
  → ∃ t, fetch sv key message query w
         = (inr (JObj o, JArr l, t), log (HttpGet (api_url ++ quote query)) w)
       ∧ (t == Spec.total_of l)%Q.
Proof.
  intros Hget Hst Hbody Hitems Hok.
  destruct (sum_from_total l 0%Q Hok) as (t & Ht & Heq).
  exists t. split; [|rewrite Heq; ring].
  unfold fetch. run. rewrite Hget. simpl. rewrite Hst. simpl.
  rewrite Hbody. simpl. rewrite Hitems. unfold sum_calories. simpl.
  by rewrite Ht.
Qed.


(** ** Validation of the provider's answer *)

Lemma ap_inr {A B} (f : result (A → B)) (x : result A) (b : B) :
  f <*> x = inr b → ∃ g a, f = inr g ∧ x = inr a ∧ b = g a.
Proof. destruct f, x; simpl; intros [= <-]; eauto. Qed.

Lemma required_inr {A} o loc k (v : validator A) a :
  required o loc k v = inr a
  → ∃ j, obj_get k o = Some j ∧ v (loc ++ [LField k]) j = inr a.
Proof. unfold required. destruct (obj_get k o); [eauto|done]. Qed.

Lemma v_float_reads loc j q : v_float loc j = inr q → Spec.read_number j q.
Proof.
  destruct j; simpl; try done; try (by intros [= <-]).
  destruct (str_as_float s); [by intros [= <-]|done].
Qed.

Lemma v_str_reads loc j s : v_str loc j = inr s → j = JStr s.
Proof. destruct j; simpl; try done. by intros [= <-]. Qed.

Lemma optional_text_reads o loc k s :
  with_default o loc k (v_optional v_str) None = inr s
  → Spec.optional_text (obj_get k o) s.
Proof.
  unfold with_default. destruct (obj_get k o) as [[]|]; simpl; try done;
    by intros [= <-].
Qed.

Lemma float_field_reads o loc k q :
  required o loc k v_float = inr q → Spec.field Spec.read_number o k q.
Proof.
  intros (j & Hj & Hv)%required_inr. exists j. eauto using v_float_reads.
Qed.

Lemma str_field_reads o loc k s :
  required o loc k v_str = inr s → Spec.field (λ v t, v = JStr t) o k s.
Proof.
  intros (j & Hj & Hv)%required_inr. exists j. eauto using v_str_reads.
Qed.

Ltac split_ap H :=
  repeat
    (let g := fresh "g" in let a := fresh "a" in
     let Hg := fresh "Hg" in let Ha := fresh "Ha" in
     apply ap_inr in H as (g & a & H & Ha & ->)).

Lemma v_FoodItem_reads loc j it :
  AppGeminiOnly.v_FoodItem loc j = inr it → Spec.item_of Spec.read_number j it.
Proof.
  destruct j as [| | | | |o]; try done. unfold AppGeminiOnly.v_FoodItem.
  intros H. split_ap H. injection H as <-. simpl.
  exists o. repeat split;
    eauto using float_field_reads, str_field_reads, optional_text_reads.
Qed.

Lemma v_elements_cons {A} (v : validator A) loc i j r :
  v_elements v loc i (j :: r)
  = inr cons <*> v (loc ++ [LIndex i]) j <*> v_elements v loc (S i) r.
Proof. reflexivity. Qed.

Lemma v_elements_reads loc i l its :
  v_elements AppGeminiOnly.v_FoodItem loc i l = inr its
  → Forall2 (Spec.item_of Spec.read_number) l its.
Proof.
  revert i its. induction l as [|j r IH]; intros i its.
  - intros [= <-]. constructor.
  - rewrite v_elements_cons. intros H. split_ap H. injection H as <-.
    constructor; eauto using v_FoodItem_reads.
Qed.

Lemma v_NutritionEstimate_reads loc j e :
  AppGeminiOnly.v_NutritionEstimate loc j = inr e
  → Spec.estimate_of Spec.read_number j e.
Proof.
  destruct j as [| | | | |o]; try done. unfold AppGeminiOnly.v_NutritionEstimate.
  intros H. split_ap H. injection H as <-. simpl.
  match goal with
  | Hi : required _ _ _ (v_list _) = inr _ |- _ =>
      apply required_inr in Hi as (j & Hj & Hv)
  end.
  destruct j as [| | | |l|]; try done.
  exists o, l. repeat split;
    eauto using float_field_reads, optional_text_reads, v_elements_reads.
Qed.

(** *** A missing required field is reported *)

Lemma missing_ap_l {A B} (f : result (A → B)) (x : result A) :
  Spec.fails_missing f → Spec.fails_missing (f <*> x).
Proof.
  destruct f as [e1|g], x as [e2|a]; simpl; try done.
  unfold Spec.reports_missing. rewrite Exists_app. auto.
Qed.

Lemma missing_ap_r {A B} (f : result (A → B)) (x : result A) :
  Spec.fails_missing x → Spec.fails_missing (f <*> x).
Proof.
  destruct f as [e1|g], x as [e2|a]; simpl; try done.
  unfold Spec.reports_missing. rewrite Exists_app. auto.
Qed.

Lemma required_missing {A} o loc k (v : validator A) :
  obj_get k o = None → Spec.fails_missing (required o loc k v).
Proof.
  intros Hk. unfold required. rewrite Hk. simpl. by apply Exists_cons_hd.
Qed.

Lemma required_inner_missing {A} o loc k (v : validator A) j :
  obj_get k o = Some j
  → Spec.fails_missing (v (loc ++ [LField k]) j)
  → Spec.fails_missing (required o loc k v).
Proof. intros Hk. unfold required. by rewrite Hk. Qed.

Ltac find_missing :=
  repeat first
    [ apply missing_ap_r; apply required_missing; assumption
    | apply missing_ap_l ].

Lemma lacks_inv keys o :
  Spec.lacks keys o = true → ∃ k, k ∈ keys ∧ obj_get k o = None.
Proof.
  unfold Spec.lacks. intros (k & Hin & Hk)%existsb_exists.
  exists k. split; [by apply list_elem_of_In|]. by destruct (obj_get k o).
Qed.

Lemma v_FoodItem_missing loc o :
  Spec.lacks Spec.item_keys o = true
  → Spec.fails_missing (AppGeminiOnly.v_FoodItem loc (JObj o)).
Proof.
  intros (k & Hin & Hk)%lacks_inv. unfold AppGeminiOnly.v_FoodItem.
  unfold Spec.item_keys in Hin.
  repeat (apply elem_of_cons in Hin as [->|Hin]; [by find_missing|]).
  by apply elem_of_nil in Hin.
Qed.

Lemma v_elements_missing loc i l :
  existsb (λ item, match item with
                   | JObj oi => Spec.lacks Spec.item_keys oi
                   | _ => false
                   end) l = true
  → Spec.fails_missing (v_elements AppGeminiOnly.v_FoodItem loc i l).
Proof.
  revert i. induction l as [|j r IH]; intros i; [done|].
  rewrite v_elements_cons. simpl existsb. intros [Hj|Hr]%orb_true_iff.
  - apply missing_ap_l, missing_ap_r. destruct j; try done.
    by apply v_FoodItem_missing.
  - by apply missing_ap_r, IH.
Qed.

Lemma v_NutritionEstimate_missing loc j :
  Spec.omits_required j = true
  → Spec.fails_missing (AppGeminiOnly.v_NutritionEstimate loc j).
Proof.
  destruct j as [| | | | |o]; try done. unfold Spec.omits_required.
  intros [Htop|Hitems]%orb_true_iff; unfold AppGeminiOnly.v_NutritionEstimate.
  - apply lacks_inv in Htop as (k & Hin & Hk). unfold Spec.estimate_keys in Hin.
    repeat (apply elem_of_cons in Hin as [->|Hin]; [by find_missing|]).
    by apply elem_of_nil in Hin.
  - destruct (obj_get (lit "items") o) as [[| | | |l|]|] eqn:Hi; try done.
    do 5 apply missing_ap_l. apply missing_ap_r.
    eapply required_inner_missing; [done|]. by apply v_elements_missing.
Qed.

(** *** A failed validation always names an error *)

Lemma never_silent_ap {A B} (f : result (A → B)) (x : result A) :
  Spec.never_silent f → Spec.never_silent x → Spec.never_silent (f <*> x).
Proof.
  destruct f as [[|e1 r1]|g], x as [[|e2 r2]|a]; simpl; done.
Qed.

Lemma never_silent_float loc j : Spec.never_silent (v_float loc j).
Proof. destruct j; simpl; try done. by destruct (str_as_float s). Qed.

Lemma never_silent_str loc j : Spec.never_silent (v_str loc j).
Proof. by destruct j. Qed.

Lemma never_silent_optional_str loc j : Spec.never_silent (v_optional v_str loc j).
Proof. by destruct j. Qed.

Lemma never_silent_required {A} o loc k (v : validator A) :
  (∀ loc' j, Spec.never_silent (v loc' j)) → Spec.never_silent (required o loc k v).
Proof. intros Hv. unfold required. by destruct (obj_get k o). Qed.

Lemma never_silent_with_default {A} o loc k (v : validator A) d :
  (∀ loc' j, Spec.never_silent (v loc' j))
  → Spec.never_silent (with_default o loc k v d).
Proof. intros Hv. unfold with_default. by destruct (obj_get k o). Qed.

Lemma never_silent_list {A} (v : validator A) :
  (∀ loc j, Spec.never_silent (v loc j))
  → ∀ loc j, Spec.never_silent (v_list v loc j).
Proof.
  intros Hv loc j. destruct j as [| | | |l|]; try done. simpl.
  generalize 0%nat. induction l as [|x r IH]; intros i; [done|].
  rewrite v_elements_cons. by repeat apply never_silent_ap.
Qed.

Create HintDb silent.
#[local] Hint Resolve never_silent_float never_silent_str never_silent_optional_str
  never_silent_required never_silent_with_default never_silent_ap : silent.

Lemma never_silent_FoodItem loc j : Spec.never_silent (AppGeminiOnly.v_FoodItem loc j).
Proof.
  destruct j; try done. unfold AppGeminiOnly.v_FoodItem.
  repeat apply never_silent_ap; auto with silent. done.
Qed.

Lemma never_silent_NutritionEstimate loc j :
  Spec.never_silent (AppGeminiOnly.v_NutritionEstimate loc j).
Proof.
  destruct j; try done. unfold AppGeminiOnly.v_NutritionEstimate.
  repeat apply never_silent_ap; auto with silent; [done|].
  apply never_silent_required, never_silent_list, never_silent_FoodItem.
Qed.

(** *** A conformant answer is accepted as it is *)

Lemma conforms_object props o :
  conforms (SObject props) (JObj o)
  = forallb (λ p : str * schema * bool,
               match obj_get p.1.1 o with
               | Some v => conforms p.1.2 v
               | None => negb p.2
               end) props.
Proof. reflexivity. Qed.

Lemma conforms_array s l : conforms (SArray s) (JArr l) = forallb (conforms s) l.
Proof. reflexivity. Qed.

Ltac lookups :=
  repeat match goal with
    | H : (_ && _) = true |- _ => apply andb_true_iff in H as [? H]
    | H : match obj_get ?k ?o with _ => _ end = true |- _ =>
        let E := fresh "E" in
        destruct (obj_get k o) as [[]|] eqn:E; simpl in H; try discriminate H; clear H
    end.

Ltac use_lookups :=
  repeat match goal with
    | E : obj_get _ _ = _ |- _ => rewrite E
    end.

Lemma v_FoodItem_conforms loc j :
  conforms AppGeminiOnly.FoodItem_schema j = true
  → ∃ it, AppGeminiOnly.v_FoodItem loc j = inr it ∧ Spec.item_of Spec.same_number j it.
Proof.
  destruct j as [| | | | |o]; try done. intros H.
  unfold AppGeminiOnly.FoodItem_schema in H. simpl in H. lookups;
    (eexists; split;
     [ unfold AppGeminiOnly.v_FoodItem, required, with_default; use_lookups;
       reflexivity
     | exists o; unfold Spec.field, Spec.same_number; simpl; use_lookups;
       repeat split; eauto ]).
Qed.

Lemma v_elements_conforms loc i l :
  forallb (conforms AppGeminiOnly.FoodItem_schema) l = true
  → ∃ its, v_elements AppGeminiOnly.v_FoodItem loc i l = inr its
         ∧ Forall2 (Spec.item_of Spec.same_number) l its.
Proof.
  revert i. induction l as [|j r IH]; intros i.
  - intros _. exists []. split; [done|constructor].
  - simpl forallb. intros [Hj Hr]%andb_true_iff. rewrite v_elements_cons.
    destruct (v_FoodItem_conforms (loc ++ [LIndex i]) j Hj) as (it & -> & Hit).
    destruct (IH (S i) Hr) as (its & -> & Hits).
    exists (it :: its). split; [done|by constructor].
Qed.

Lemma v_NutritionEstimate_conforms loc j :
  conforms AppGeminiOnly.model_json_schema j = true
  → ∃ e, AppGeminiOnly.v_NutritionEstimate loc j = inr e
       ∧ Spec.estimate_of Spec.same_number j e.
Proof.
  destruct j as [| | | | |o]; try done. intros H.
  unfold AppGeminiOnly.model_json_schema in H. rewrite conforms_object in H.
  cbn [forallb fst snd] in H.
  apply andb_true_iff in H as [Hitems H].
  destruct (obj_get (lit "items") o) as [[| | | |l|]|] eqn:Ei; try done.
  rewrite conforms_array in Hitems.
  destruct (v_elements_conforms (loc ++ [LField (lit "items")]) 0 l Hitems)
    as (its & Hv & Hits).
  lookups;
    (eexists; split;
     [ unfold AppGeminiOnly.v_NutritionEstimate, required, with_default; use_lookups;
       simpl; rewrite Hv; reflexivity
     | exists o, l; unfold Spec.field, Spec.same_number; simpl; use_lookups;
       repeat split; eauto ]).
Qed.

(** *** The document that spells an estimate is read back as that estimate *)

Lemma v_FoodItem_item_json loc it :
  AppGeminiOnly.v_FoodItem loc (Spec.item_json it) = inr it.
Proof. destruct it as [n q c p cb f [r|]]; vm_compute; reflexivity. Qed.

Lemma v_elements_item_json loc i its :
  v_elements AppGeminiOnly.v_FoodItem loc i (map Spec.item_json its) = inr its.
Proof.
  revert i. induction its as [|it r IH]; intros i; [done|].
  rewrite map_cons, v_elements_cons, v_FoodItem_item_json, IH. reflexivity.
Qed.

Lemma v_NutritionEstimate_estimate_json e :
  AppGeminiOnly.v_NutritionEstimate [] (Spec.estimate_json e) = inr e.
Proof.
  destruct e as [its tc tp tcb tf n].
  unfold AppGeminiOnly.v_NutritionEstimate, Spec.estimate_json, required, with_default.
  cbn [AppGeminiOnly.items AppGeminiOnly.total_calories_kcal AppGeminiOnly.total_protein_g
       AppGeminiOnly.total_carbs_g AppGeminiOnly.total_fat_g AppGeminiOnly.notes].
  set (l := map Spec.item_json its).
  assert (obj_get (lit "items")
            [(lit "items", JArr l); (lit "total_calories_kcal", JNum tc);
             (lit "total_protein_g", JNum tp); (lit "total_carbs_g", JNum tcb);
             (lit "total_fat_g", JNum tf); (lit "notes", Spec.text_json n)]
          = Some (JArr l)) as -> by (vm_compute; reflexivity).
  subst l. simpl v_list. rewrite v_elements_item_json.
  destruct n; vm_compute; reflexivity.
Qed.

(** ** [estimate_nutrition_with_gemini] on an answer of the provider *)

Lemma estimate_run (sv : Services) (c : Client) (image_path : str) (w : World)
    (f : str) (t : option str) :
  genai_upload sv (api_key c) image_path (fs w !! image_path) = inr f
  → genai_generate sv (api_key c) (lit "gemini-2.5-pro") AppGeminiOnly.prompt f
      (Some AppGeminiOnly.model_json_schema) = inr t
  → AppGeminiOnly.estimate_nutrition_with_gemini sv (Some c) image_path w
    = (AppGeminiOnly.model_validate_json t,
       log (GenerateContent (lit "gemini-2.5-pro") f) (log (FilesUpload image_path) w)).
Proof.
  intros Hup Hgen. unfold AppGeminiOnly.estimate_nutrition_with_gemini. run.
  rewrite Hup. simpl. by rewrite Hgen.
Qed.


(** C6. When the answer text is a JSON document that conforms to the schema
    sent with the request, the call returns an estimate with as many items as
    the document's [items] array holds, in the same order, and every field of
    every item and the four totals are the very numbers and strings of the
    document: the totals are not recomputed from the items. *)
Theorem conformant_answer_returned_unchanged (sv : Services) (c : Client)
    (image_path : str) (w : World) (f : str) (text : str) (j : json) :
  genai_upload sv (api_key c) image_path (fs w !! image_path) = inr f
  → genai_generate sv (api_key c) (lit "gemini-2.5-pro") AppGeminiOnly.prompt f
      (Some AppGeminiOnly.model_json_schema) = inr (Some text)
  → loads text = Some j
  → conforms AppGeminiOnly.model_json_schema j = true
  → ∃ e o l,
      (AppGeminiOnly.estimate_nutrition_with_gemini sv (Some c) image_path w).1 = inr e
      ∧ j = JObj o
      ∧ obj_get (lit "items") o = Some (JArr l)
      ∧ length (AppGeminiOnly.items e) = length l
      ∧ Spec.estimate_of Spec.same_number j e.
Proof.
  intros Hup Hgen Hj Hc. rewrite (estimate_run _ _ _ _ _ _ Hup Hgen).
  unfold AppGeminiOnly.model_validate_json, Pydantic.model_validate_json. simpl.
  rewrite Hj. destruct (v_NutritionEstimate_conforms [] j Hc) as (e & -> & He).
  pose proof He as (o & l & -> & Hi & Hits & _).
  exists e, o, l. repeat split; try done. symmetry. by eapply Forall2_length.
Qed.

(** C3, as the code has it.  Validation sets no bound on a number: whatever
    the numbers of an estimate are, negative ones included, an answer that
    spells that estimate is accepted and the call returns it unchanged. *)
Theorem validation_accepts_any_number (sv : Services) (c : Client) (image_path : str)
    (w : World) (f : str) (text : str) (e : AppGeminiOnly.NutritionEstimate) :
  genai_upload sv (api_key c) image_path (fs w !! image_path) = inr f
  → genai_generate sv (api_key c) (lit "gemini-2.5-pro") AppGeminiOnly.prompt f
      (Some AppGeminiOnly.model_json_schema) = inr (Some text)
  → loads text = Some (Spec.estimate_json e)
  → (AppGeminiOnly.estimate_nutrition_with_gemini sv (Some c) image_path w).1 = inr e.
Proof.
  intros Hup Hgen Hj. rewrite (estimate_run _ _ _ _ _ _ Hup Hgen).
  unfold AppGeminiOnly.model_validate_json, Pydantic.model_validate_json. simpl.
  by rewrite Hj, v_NutritionEstimate_estimate_json.
Qed.

(** ** Files and outside calls *)

Lemma quiet_ret {A} (a : A) : Spec.quiet (mret a : M A).
Proof. intros w. split; [done|]. exists []. by rewrite app_nil_r. Qed.

Lemma quiet_raise {A} e : Spec.quiet (raise e : M A).
Proof. intros w. split; [done|]. exists []. by rewrite app_nil_r. Qed.

Lemma quiet_answer {A} (r : pyexn + A) : Spec.quiet (answer r).
Proof. intros w. split; [done|]. exists []. by rewrite app_nil_r. Qed.

Lemma quiet_emit e : Spec.quiet (emit e).
Proof. intros w. split; [done|]. by exists [e]. Qed.

Lemma quiet_show o : Spec.quiet (show o).
Proof. apply quiet_emit. Qed.

Lemma quiet_read_file path : Spec.quiet (AppGeminiOnly.read_file path).
Proof. intros w. split; [done|]. exists []. by rewrite app_nil_r. Qed.

Lemma quiet_path_exists path : Spec.quiet (path_exists path).
Proof. intros w. split; [done|]. exists []. by rewrite app_nil_r. Qed.

Lemma quiet_bind {A B} (m : M A) (k : A → M B) :
  Spec.quiet m → (∀ a, Spec.quiet (k a)) → Spec.quiet (m ≫= k).
Proof.
  intros Hm Hk w. unfold mbind, M_bind, bind.
  destruct (Hm w) as (Hfs & evs & Htr). destruct (m w) as [[e|a] w1]; simpl in *.
  - split; [done|]. by exists evs.
  - destruct (Hk a w1) as (Hfs' & evs' & Htr'). split; [congruence|].
    exists (evs ++ evs'). by rewrite Htr', Htr, app_assoc.
Qed.

Lemma quiet_try_except {A} (m : M A) (h : pyexn → M A) :
  Spec.quiet m → (∀ e, Spec.quiet (h e)) → Spec.quiet (try_except m h).
Proof.
  intros Hm Hh w. unfold try_except.
  destruct (Hm w) as (Hfs & evs & Htr). destruct (m w) as [[e|a] w1]; simpl in *.
  - destruct (Hh e w1) as (Hfs' & evs' & Htr'). split; [congruence|].
    exists (evs ++ evs'). by rewrite Htr', Htr, app_assoc.
  - split; [done|]. by exists evs.
Qed.

Create HintDb quiet.
#[local] Hint Resolve quiet_ret quiet_raise quiet_answer quiet_emit quiet_show
  quiet_read_file quiet_path_exists : quiet.

Ltac quiet :=
  repeat first
    [ progress auto with quiet
    | apply quiet_bind; [|intros ?]
    | match goal with
      | |- Spec.quiet (if ?b then _ else _) => destruct b
      | |- Spec.quiet (match ?x with _ => _ end) => destruct x
      end ].

Lemma quiet_estimate sv client image_path :
  Spec.quiet (AppGeminiOnly.estimate_nutrition_with_gemini sv client image_path).
Proof. unfold AppGeminiOnly.estimate_nutrition_with_gemini. quiet. Qed.

Lemma quiet_show_items l : Spec.quiet (AppGeminiOnly.show_items l).
Proof. induction l; simpl; quiet. Qed.

Lemma quiet_show_estimate e : Spec.quiet (AppGeminiOnly.show_estimate e).
Proof.
  unfold AppGeminiOnly.show_estimate.
  do 5 (apply quiet_bind; [auto with quiet|intros ?]).
  apply quiet_bind; [|intros ?; destruct (AppGeminiOnly.truthy_opt _); auto with quiet].
  destruct (AppGeminiOnly.items e); [auto with quiet|apply quiet_show_items].
Qed.

Lemma quiet_build_food_query sv client image_path :
  Spec.quiet (App.build_food_query_from_image sv client image_path).
Proof. unfold App.build_food_query_from_image. quiet. Qed.

Lemma quiet_fetch sv key message query : Spec.quiet (fetch sv key message query).
Proof.
  unfold fetch. do 2 (apply quiet_bind; [auto with quiet|intros ?]).
  case_bool_decide; [auto with quiet|]. quiet.
Qed.

Lemma quiet_call_calorieninjas sv key query :
  Spec.quiet (App.call_calorieninjas sv key query).
Proof.
  unfold App.call_calorieninjas. apply quiet_bind; [apply quiet_fetch|].
  auto with quiet.
Qed.

(** The name that [tempfile] picks is the name of no file. *)
Lemma fresh_name_fresh f suffix candidates p rest :
  fresh_name f suffix candidates = Some (p, rest) → f !! p = None.
Proof.
  induction candidates as [|n r IH]; simpl; [done|].
  case_bool_decide as Hn; [done|]. intros [= <- <-].
  by apply eq_None_not_Some.
Qed.

(** Saving an upload: whatever the bytes, an empty buffer included, the file
    is created; it is written unless the disk is full. *)
Lemma save_temp_creates suffix data w p rest :
  fresh_name (fs w) suffix (names w) = Some (p, rest)
  → save_temp suffix data w
    = if disk_full w
      then (inl (OSError (lit "No space left on device")),
            log (TempCreated p) (set_fs (<[p := []]> (fs w)) (set_names rest w)))
      else (inr p,
            log (TempWritten p data)
              (set_fs (<[p := data]> (<[p := []]> (fs w)))
                 (log (TempCreated p) (set_fs (<[p := []]> (fs w)) (set_names rest w))))).
Proof.
  intros Hfresh. unfold save_temp, NamedTemporaryFile, write. run.
  rewrite Hfresh. simpl. by destruct (disk_full w).
Qed.

Lemma save_temp_no_name suffix data w :
  fresh_name (fs w) suffix (names w) = None
  → save_temp suffix data w
    = (inl (FileExistsError (lit "No usable temporary file name found")), set_names [] w).
Proof.
  intros Hfresh. unfold save_temp, NamedTemporaryFile. run. by rewrite Hfresh.
Qed.

Lemma estimate_uploads_first sv c image_path w :
  ∃ rest,
    trace (AppGeminiOnly.estimate_nutrition_with_gemini sv (Some c) image_path w).2
    = trace w ++ FilesUpload image_path :: rest.
Proof.
  unfold AppGeminiOnly.estimate_nutrition_with_gemini.
  set (k := λ _ : (), _). unfold mbind at 1, M_bind, bind, emit.
  assert (Spec.quiet (k tt)) as Hq by (subst k; simpl; quiet).
  destruct (Hq (log (FilesUpload image_path) w)) as (_ & evs & Htr).
  exists evs. rewrite Htr. simpl. by rewrite <- app_assoc.
Qed.

Lemma quiet_ask_and_show sv client tmp_path :
  Spec.quiet (AppGeminiOnly.ask_and_show sv client tmp_path).
Proof.
  unfold AppGeminiOnly.ask_and_show. do 2 (apply quiet_bind; [auto with quiet|intros ?]).
  apply quiet_bind; [apply quiet_estimate|apply quiet_show_estimate].
Qed.

Lemma ask_and_show_uploads sv c tmp_path w :
  ∃ rest,
    trace (AppGeminiOnly.ask_and_show sv (Some c) tmp_path w).2
    = trace w ++ Shown (StWrite (lit "Saved temporary file: " ++ tmp_path))
        :: Shown (StWrite (lit "Sending to Gemini for analysis..."))
        :: FilesUpload tmp_path :: rest.
Proof.
  unfold AppGeminiOnly.ask_and_show. unfold mbind at 1 2 3, M_bind, bind, show, emit.
  set (w1 := log _ (log _ w)).
  destruct (estimate_uploads_first sv c tmp_path w1) as (rest & Htr).
  destruct (AppGeminiOnly.estimate_nutrition_with_gemini sv (Some c) tmp_path w1)
    as [[e|est] w2]; simpl in *.
  - exists rest. rewrite Htr. subst w1. simpl. by rewrite <- !app_assoc.
  - destruct (quiet_show_estimate est w2) as (_ & evs & Htr').
    exists (rest ++ evs). rewrite Htr', Htr. subst w1. simpl.
    by rewrite <- !app_assoc.
Qed.

Lemma cleanup_grows tmp_path w :
  ∃ evs, trace (AppGeminiOnly.cleanup tmp_path w).2 = trace w ++ evs
       ∧ ∃ u, (AppGeminiOnly.cleanup tmp_path w).1 = inr u.
Proof.
  destruct tmp_path as [p|]; simpl; [|exists []; rewrite app_nil_r; eauto].
  run. case_bool_decide; simpl.
  - eexists [_; _]. rewrite <- app_assoc. eauto.
  - exists []. rewrite app_nil_r. eauto.
Qed.

(** In app_gemini_only.py the [finally] block removes the file that the run
    saved: when the upload was written, the files after the handler are the
    files before it, however the request ended. *)
Lemma analyze_removes_temporary_file sv client up w p rest :
  fresh_name (fs w) (lit "." ++ last_part (Py.split (ch ".") (Streamlit.name up)))
    (names w) = Some (p, rest)
  → disk_full w = false
  → fs (AppGeminiOnly.analyze sv client up w).2 = fs w.
Proof.
  intros Hfresh Hdisk. unfold AppGeminiOnly.analyze.
  rewrite (save_temp_creates _ _ _ _ _ Hfresh), Hdisk.
  set (w1 := log (TempWritten _ _) _).
  destruct (quiet_ask_and_show sv client p w1) as (Hfs & _).
  destruct (AppGeminiOnly.ask_and_show sv client p w1) as [outcome w2]. simpl in Hfs.
  assert (∃ h w3, match outcome with
                  | inl e => show (StError (lit "An error occurred: ") (Some e)) w2
                  | inr _ => (inr tt, w2)
                  end = (h, w3) ∧ fs w3 = fs w2) as (h & w3 & -> & Hfs3).
  { destruct outcome; eexists _, _; split; reflexivity. }
  unfold AppGeminiOnly.cleanup. run.
  assert (fs w3 = <[p := getvalue up]> (<[p := []]> (fs w))) as Hw3.
  { rewrite Hfs3, Hfs. reflexivity. }
  rewrite bool_decide_true by (rewrite Hw3, lookup_insert_eq; eauto). simpl.
  rewrite Hw3, insert_insert_eq. apply delete_insert_id.
  by eapply fresh_name_fresh.
Qed.

(** When the write fails the name is never bound, and the [finally] block
    leaves the empty file that [NamedTemporaryFile] created. *)
Lemma analyze_keeps_file_when_write_fails sv client up w p rest :
  fresh_name (fs w) (lit "." ++ last_part (Py.split (ch ".") (Streamlit.name up)))
    (names w) = Some (p, rest)
  → disk_full w = true
  → fs w !! p = None
    ∧ fs (AppGeminiOnly.analyze sv client up w).2 !! p = Some [].
Proof.
  intros Hfresh Hdisk. split; [by eapply fresh_name_fresh|].
  unfold AppGeminiOnly.analyze.
  rewrite (save_temp_creates _ _ _ _ _ Hfresh), Hdisk. simpl.
  apply lookup_insert_eq.
Qed.

Lemma try_except_bind {A B} (m : M A) (k : A → M B) (h : pyexn → M B) w :
  try_except (m ≫= k) h w
  = match m w with
    | (inr a, w1) => try_except (k a) h w1
    | (inl e, w1) => h e w1
    end.
Proof. unfold try_except, mbind, M_bind, bind. by destruct (m w) as [[e|a] w1]. Qed.

Lemma ret_bind {A B} (a : A) (k : A → M B) w : (mret a ≫= k) w = k a w.
Proof. reflexivity. Qed.

Lemma try_except_shown (m : M ()) (h : pyexn → output) w :
  (try_except m (λ e, show (h e)) w).1 = inr tt.
Proof. unfold try_except. by destruct (m w) as [[e|[]] w1]. Qed.

Lemma quiet_app_rest sv environ tmp_path :
  Spec.quiet
    (query ← App.build_food_query_from_image sv
                (App.client (App.GEMINI_API_KEY environ)) tmp_path;
     show (StWrite query);;
     r ← App.call_calorieninjas sv (App.CALORIE_NINJAS_API_KEY environ) query;
     show (StMetric (lit "Total") r.2);;
     show (StJson r.1)).
Proof.
  apply quiet_bind; [apply quiet_build_food_query|intros query].
  apply quiet_bind; [auto with quiet|intros _].
  apply quiet_bind; [apply quiet_call_calorieninjas|intros r].
  apply quiet_bind; [auto with quiet|intros _]. auto with quiet.
Qed.

(** C4 fails in app.py.  With both keys configured and an image in the
    uploader, one press of the button saves the image under a fresh name with
    [delete=False] and the run ends normally, whatever the provider and the
    nutrition database answer, with that file still there: no path through
    the handler removes it. *)
Theorem app_leaves_temporary_file (sv : Services) (environ : gmap str str)
    (chosen : option UploadedFile) (image : UploadedFile) (w : World) (p : str)
    (rest : list str) :
  App.truthy_opt (App.GEMINI_API_KEY environ) = true
  → App.truthy_opt (App.CALORIE_NINJAS_API_KEY environ) = true
  → file_uploader [lit "png"; lit "jpg"; lit "jpeg"] chosen = Some image
  → fresh_name (fs w) (lit ".png") (names w) = Some (p, rest)
  → let out := App.page sv environ chosen true w in
    out.1 = inr tt ∧ fs w !! p = None ∧ is_Some (fs out.2 !! p).
Proof.
  intros HG HC Hup Hfresh out. subst out. unfold App.page. rewrite HG, HC, Hup.
  rewrite !ret_bind. unfold App.estimate_button. rewrite HG, HC.
  change (negb (true && true)) with false. cbv iota.
  split; [apply try_except_shown|]. split; [by eapply fresh_name_fresh|].
  rewrite try_except_bind, (save_temp_creates _ _ _ _ _ Hfresh).
  destruct (disk_full w).
  - simpl. rewrite lookup_insert_eq. eauto.
  - match goal with
    | |- context [try_except ?m ?h ?w1] =>
        assert (Spec.quiet (try_except m h)) as Hq
          by (apply quiet_try_except; [apply quiet_app_rest|auto with quiet]);
        destruct (Hq w1) as (-> & _)
    end.
    simpl. rewrite lookup_insert_eq. eauto.
Qed.

(** ** The upload gate *)

Lemma file_uploader_rejects types up :
  (∀ e, extension (Streamlit.name up) = Some e → e ∉ types)
  → file_uploader types (Some up) = None.
Proof.
  intros Hext. unfold file_uploader.
  destruct (extension (Streamlit.name up)) as [e|]; [|done].
  rewrite bool_decide_false; [done|]. by apply Hext.
Qed.

Lemma file_uploader_accepts types up e :
  extension (Streamlit.name up) = Some e → e ∈ types
  → file_uploader types (Some up) = Some up.
Proof.
  intros Hext Hin. unfold file_uploader. rewrite Hext.
  by rewrite bool_decide_true.
Qed.


(** ** Failures of the provider and of the nutrition database *)

Lemma fetch_one_request sv key message query w :
  (fetch sv key message query w).2 = log (HttpGet (api_url ++ quote query)) w.
Proof.
  unfold fetch. run.
  destruct (http_get sv _ key) as [e|resp]; simpl; [done|].
  case_bool_decide; simpl; [done|].
  destruct (loads (text resp)) as [d|]; simpl; [|done].
  destruct (get d _ _) as [e|its]; simpl; [done|].
  by destruct (sum_calories its).
Qed.

(** C7, as the code has it.  Each call makes its outside requests once: an
    upload and at most one generation request, or one GET, and none is
    repeated.  An exception raised inside the upload, the generation request
    or the GET leaves the call as it is.  A status other than 200 raises
    [RuntimeError] with the status and the body.  An absent or blank answer
    raises [RuntimeError] in [build_food_query_from_image]; in
    [estimate_nutrition_with_gemini] an absent or empty answer text goes to
    the validator and raises pydantic's [ValidationError], the class that a
    malformed answer raises. *)
Theorem provider_failures_single_attempt (sv : Services) (c : Client)
    (image_path : str) (key : option str) (query : str) (w : World) :
  let up := genai_upload sv (api_key c) image_path (fs w !! image_path) in
  let w1 := log (FilesUpload image_path) w in
  let url := api_url ++ quote query in
  (∀ e, up = inl e
        → AppGeminiOnly.estimate_nutrition_with_gemini sv (Some c) image_path w = (inl e, w1)
          ∧ App.build_food_query_from_image sv (Some c) image_path w = (inl e, w1))
  ∧ (∀ f, up = inr f
       → let gen := genai_generate sv (api_key c) (lit "gemini-2.5-pro")
                      AppGeminiOnly.prompt f (Some AppGeminiOnly.model_json_schema) in
         let w2 := log (GenerateContent (lit "gemini-2.5-pro") f) w1 in
         (AppGeminiOnly.estimate_nutrition_with_gemini sv (Some c) image_path w).2 = w2
         ∧ (∀ e, gen = inl e
              → (AppGeminiOnly.estimate_nutrition_with_gemini sv (Some c) image_path w).1
                = inl e)
         ∧ (gen = inr None
            → (AppGeminiOnly.estimate_nutrition_with_gemini sv (Some c) image_path w).1
              = inl (ValidationError (lit "NutritionEstimate")
                       [ {| err_type := json_type; err_loc := [];
                            err_input_value := InNone |} ]))
         ∧ (gen = inr (Some [])
            → (AppGeminiOnly.estimate_nutrition_with_gemini sv (Some c) image_path w).1
              = inl (ValidationError (lit "NutritionEstimate")
                       [ {| err_type := json_invalid; err_loc := [];
                            err_input_value := InText [] |} ])))
  ∧ (∀ f, up = inr f
       → let gen := genai_generate sv (api_key c) (lit "gemini-2.5-flash") App.prompt f
                      None in
         let w2 := log (GenerateContent (lit "gemini-2.5-flash") f) w1 in
         (App.build_food_query_from_image sv (Some c) image_path w).2 = w2
         ∧ (∀ e, gen = inl e
              → (App.build_food_query_from_image sv (Some c) image_path w).1 = inl e)
         ∧ (∀ t, gen = inr t → Py.strip (default [] t) = []
              → (App.build_food_query_from_image sv (Some c) image_path w).1
                = inl (RuntimeError (lit "Gemini returned an empty query."))))
  ∧ (App.call_calorieninjas sv key query w).2 = log (HttpGet url) w
  ∧ (∀ e, http_get sv url key = inl e
        → (App.call_calorieninjas sv key query w).1 = inl e)
  ∧ (∀ resp, http_get sv url key = inr resp → status_code resp ≠ 200
        → (App.call_calorieninjas sv key query w).1
          = inl (RuntimeError (lit "CalorieNinjas error " ++ str_of_Z (status_code resp)
                               ++ lit ": " ++ text resp))).
Proof.
  intros up w1 url. subst up w1 url.
  split; [|split; [|split; [|split; [|split]]]].
  - intros e He. split.
    + unfold AppGeminiOnly.estimate_nutrition_with_gemini. run. by rewrite He.
    + unfold App.build_food_query_from_image. run. by rewrite He.
  - intros f Hup gen w2. subst gen w2. split; [|split; [|split]].
    + unfold AppGeminiOnly.estimate_nutrition_with_gemini. run. rewrite Hup. simpl.
      by destruct (genai_generate _ _ _ _ _ _).
    + intros e He. unfold AppGeminiOnly.estimate_nutrition_with_gemini. run.
      rewrite Hup. simpl. by rewrite He.
    + intros He. by rewrite (estimate_run _ _ _ _ _ _ Hup He).
    + intros He. by rewrite (estimate_run _ _ _ _ _ _ Hup He).
  - intros f Hup gen w2. subst gen w2. split; [|split].
    + unfold App.build_food_query_from_image. run. rewrite Hup. simpl.
      destruct (genai_generate _ _ _ _ _ _) as [e|t]; simpl; [done|].
      by destruct (truthy (App.query_of t)).
    + intros e He. unfold App.build_food_query_from_image. run. rewrite Hup. simpl.
      by rewrite He.
    + intros t He Hs. unfold App.build_food_query_from_image. run. rewrite Hup. simpl.
      rewrite He. simpl. rewrite query_of_truthy, Hs. reflexivity.
  - unfold App.call_calorieninjas. unfold mbind, M_bind, bind.
    pose proof (fetch_one_request sv key
                  (λ resp, lit "CalorieNinjas error " ++ str_of_Z (status_code resp)
                           ++ lit ": " ++ text resp) query w) as Hf.
    by destruct (fetch _ _ _ _ _) as [[e|r] w'].
  - intros e He. unfold App.call_calorieninjas, fetch. run. by rewrite He.
  - intros resp He Hst. unfold App.call_calorieninjas, fetch. run. rewrite He. simpl.
    by rewrite bool_decide_true.
Qed.

(** ** Concrete runs *)

Example loads_document :
  loads (dq "{'items': [], 'n': -2.50e1, 's': 'a\n\u00e9', 'b': [true, null]}")
  = Some (JObj [(lit "items", JArr []); (lit "n", JNum (Qmake (-250) 10));
                (lit "s", JStr [97; 10; 233]%N);
                (lit "b", JArr [JBool true; JNull])]).
Proof. vm_compute. reflexivity. Qed.

Example loads_rejects :
  loads (lit "Sorry, I cannot see any food.") = None
  ∧ loads (dq "{'items': [}") = None
  ∧ loads (dq "{'a': 01}") = None
  ∧ loads [] = None.
Proof. vm_compute. auto. Qed.

(** A carriage return is not a line feed: the query keeps it. *)
Example query_keeps_carriage_return :
  App.query_of (Some [32; 97; 10; 98; 13; 99; 10]%N) = [97; 32; 98; 13; 99]%N.
Proof. vm_compute. reflexivity. Qed.

Example gif_is_not_handed_over :
  AppGeminiOnly.main (says eggs_text) (Some some_client) (Some anim_gif) true w0
  = (inr tt, w0).
Proof. vm_compute. reflexivity. Qed.

(** The spec's scenario: the totals are the answer's (250), not the sum of
    the items' calories (235.5). *)
Example eggs_estimate_totals :
  ∃ e, (AppGeminiOnly.estimate_nutrition_with_gemini (says eggs_text) (Some some_client)
          meal_path w0).1 = inr e
     ∧ length (AppGeminiOnly.items e) = 2%nat
     ∧ AppGeminiOnly.total_calories_kcal e = Qmake 250 1
     ∧ map AppGeminiOnly.calories_kcal (AppGeminiOnly.items e)
       = [Qmake 1555 10; Qmake 80 1].
Proof. eexists. split; [vm_compute; reflexivity|]. vm_compute. auto. Qed.

(** The gemini-only page removes what it saved. *)
Example gemini_only_run_leaves_no_file :
  fs (AppGeminiOnly.main (says eggs_text) (Some some_client) (Some meal_jpg) true w0).2
  = ∅.
Proof. vm_compute. reflexivity. Qed.

(** ** Where the claims fail, and where the theorems apply *)



(** C3 fails: an answer with negative numbers is accepted, and the estimate
    that is returned holds them. *)
Lemma negative_numbers_are_returned :
  (AppGeminiOnly.estimate_nutrition_with_gemini (says negative_text) (Some some_client)
     meal_path w0).1 = inr negative_estimate
  ∧ (AppGeminiOnly.total_calories_kcal negative_estimate < 0)%Q
  ∧ Forall (λ it, (AppGeminiOnly.calories_kcal it < 0)%Q
                  ∧ (AppGeminiOnly.quantity_g it < 0)%Q)
      (AppGeminiOnly.items negative_estimate).
Proof.
  split; [vm_compute; reflexivity|]. split; [reflexivity|].
  repeat constructor.
Qed.

Lemma validation_accepts_any_number_witness :
  loads negative_text = Some (Spec.estimate_json negative_estimate)
  ∧ (AppGeminiOnly.estimate_nutrition_with_gemini (says negative_text) (Some some_client)
       meal_path w0).1 = inr negative_estimate.
Proof.
  assert (loads negative_text = Some (Spec.estimate_json negative_estimate)) as Hj
    by (vm_compute; reflexivity).
  split; [exact Hj|].
  exact (validation_accepts_any_number (says negative_text) some_client meal_path w0
           (lit "files/abc") negative_text negative_estimate eq_refl eq_refl Hj).
Defined.

Lemma conformant_answer_returned_unchanged_witness :
  ∃ j, loads eggs_text = Some j
     ∧ conforms AppGeminiOnly.model_json_schema j = true
     ∧ ∃ e o l,
         (AppGeminiOnly.estimate_nutrition_with_gemini (says eggs_text) (Some some_client)
            meal_path w0).1 = inr e
         ∧ j = JObj o
         ∧ obj_get (lit "items") o = Some (JArr l)
         ∧ length (AppGeminiOnly.items e) = length l
         ∧ Spec.estimate_of Spec.same_number j e.
Proof.
  destruct (loads eggs_text) as [j|] eqn:Hj; [|by vm_compute in Hj].
  assert (conforms AppGeminiOnly.model_json_schema j = true) as Hc.
  { vm_compute in Hj. injection Hj as <-. vm_compute. reflexivity. }
  exists j. split; [reflexivity|]. split; [exact Hc|].
  exact (conformant_answer_returned_unchanged (says eggs_text) some_client meal_path w0
           (lit "files/abc") eggs_text j eq_refl eq_refl Hj Hc).
Defined.

(** C4 at a concrete run of app.py: the image is saved as
    [/tmp/tmpk3x9.png], the run ends normally, the file is still there. *)
Lemma app_leaves_temporary_file_witness :
  let out := App.page ninjas both_keys (Some meal_jpg) true w0 in
  out.1 = inr tt
  ∧ fs w0 !! lit "/tmp/tmpk3x9.png" = None
  ∧ is_Some (fs out.2 !! lit "/tmp/tmpk3x9.png").
Proof.
  apply (app_leaves_temporary_file ninjas both_keys (Some meal_jpg) meal_jpg w0
           (lit "/tmp/tmpk3x9.png") [lit "p0q1"]); vm_compute; reflexivity.
Defined.


(** C7 fails for an empty or absent answer text in
    [estimate_nutrition_with_gemini]: the exception is pydantic's
    [ValidationError], as for a text that is not JSON. *)
Lemma empty_answer_is_validation_error :
  (AppGeminiOnly.estimate_nutrition_with_gemini (says []) (Some some_client)
     meal_path w0).1
  = inl (ValidationError (lit "NutritionEstimate")
           [ {| err_type := json_invalid; err_loc := []; err_input_value := InText [] |} ])
  ∧ (AppGeminiOnly.estimate_nutrition_with_gemini
       (stub (inr (lit "files/abc")) (inr None) no_http) (Some some_client)
       meal_path w0).1
    = inl (ValidationError (lit "NutritionEstimate")
             [ {| err_type := json_type; err_loc := []; err_input_value := InNone |} ])
  ∧ (AppGeminiOnly.estimate_nutrition_with_gemini (says (lit "not json"))
       (Some some_client) meal_path w0).1
    = inl (ValidationError (lit "NutritionEstimate")
             [ {| err_type := json_invalid; err_loc := [];
                  err_input_value := InText (lit "not json") |} ]).
Proof. vm_compute. auto. Qed.


(** * Further properties of the code *)

#[local] Set Warnings "-clear-no-such-hyp".

(** ** Worlds and recorded events *)

Lemma log_extend e w : log e w = Behaviour.extend [e] w.
Proof. reflexivity. Qed.

Lemma extend_extend a b w :
  Behaviour.extend b (Behaviour.extend a w) = Behaviour.extend (a ++ b) w.
Proof. unfold Behaviour.extend. simpl. by rewrite app_assoc. Qed.

Lemma extend_nil w : Behaviour.extend [] w = w.
Proof. destruct w. unfold Behaviour.extend. simpl. by rewrite app_nil_r. Qed.

(** ** The key and the client of app_gemini_only.py *)

(** The secrets come first: the environment is looked at only when the
    secrets hold no such key.  A client is built exactly when the key that
    this yields is non-empty and is not the placeholder, and it holds that
    key; so an empty or placeholder secret leaves the page without a client
    even when the environment holds a good key. *)
Theorem gemini_client_key_precedence (secrets : option (gmap str str))
    (environ : gmap str str) (c : Client) :
  AppGeminiOnly.client (AppGeminiOnly.GEMINI_API_KEY secrets environ) = Some c
  ↔ api_key c ≠ [] ∧ api_key c ≠ lit "YOUR_GEMINI_KEY_HERE"
    ∧ match secrets ≫= (λ s, s !! lit "GEMINI_API_KEY") with
      | Some k => k = api_key c
      | None => environ !! lit "GEMINI_API_KEY" = Some (api_key c)
      end.
Proof.
  assert (∀ key, AppGeminiOnly.client key = Some c
                 ↔ api_key c ≠ [] ∧ api_key c ≠ lit "YOUR_GEMINI_KEY_HERE"
                   ∧ key = Some (api_key c)) as Hc.
  { destruct c as [kc]. simpl. intros [k|]; unfold AppGeminiOnly.client.
    - destruct k as [|x k].
      + simpl. split; [done|]. intros (Hne & _ & [= Heq]). by rewrite <- Heq in Hne.
      + unfold truthy. rewrite andb_true_l. case_bool_decide as Hk; unfold negb.
        * split; [done|]. intros (_ & Hp & [= Heq]). by rewrite <- Heq in Hp.
        * split.
          -- intros [= <-]. done.
          -- intros (_ & _ & [= <-]). done.
    - split; [done|]. by intros (_ & _ & ?). }
  rewrite Hc. unfold AppGeminiOnly.GEMINI_API_KEY.
  destruct secrets as [s|]; simpl; [|done].
  destruct (s !! lit "GEMINI_API_KEY") as [k|]; simpl; [|done].
  split; intros (H1 & H2 & H3); repeat split; try done; congruence.
Qed.

(** ** The gemini-only page *)

Lemma estimate_outcome sv c image_path w :
  AppGeminiOnly.estimate_nutrition_with_gemini sv (Some c) image_path w
  = match genai_upload sv (api_key c) image_path (fs w !! image_path) with
    | inl x => (inl x, Behaviour.extend [FilesUpload image_path] w)
    | inr f =>
        (match genai_generate sv (api_key c) (lit "gemini-2.5-pro") AppGeminiOnly.prompt f
                 (Some AppGeminiOnly.model_json_schema) with
         | inl x => inl x
         | inr t => AppGeminiOnly.model_validate_json t
         end,
         Behaviour.extend [FilesUpload image_path; GenerateContent (lit "gemini-2.5-pro") f] w)
    end.
Proof.
  unfold AppGeminiOnly.estimate_nutrition_with_gemini. run.
  destruct (genai_upload _ _ _ _) as [x|f]; simpl; [done|].
  rewrite !log_extend, extend_extend.
  by destruct (genai_generate _ _ _ _ _ _).
Qed.

Lemma bind_show {B} o (k : () → M B) w :
  (show o ≫= k) w = k tt (Behaviour.extend [Shown o] w).
Proof. reflexivity. Qed.

Lemma show_run o w : show o w = (inr tt, Behaviour.extend [Shown o] w).
Proof. reflexivity. Qed.

Lemma bind_run {A B} (m : M A) (k : A → M B) w a w' :
  m w = (inr a, w') → (m ≫= k) w = k a w'.
Proof. intros Hm. unfold mbind, M_bind, bind. by rewrite Hm. Qed.

Lemma bind_fail {A B} (m : M A) (k : A → M B) w e w' :
  m w = (inl e, w') → (m ≫= k) w = (inl e, w').
Proof. intros Hm. unfold mbind, M_bind, bind. by rewrite Hm. Qed.

Lemma show_items_run l w :
  AppGeminiOnly.show_items l w
  = (inr tt, Behaviour.extend (map Shown (map Behaviour.item_row l)) w).
Proof.
  revert w. induction l as [|item r IH]; intros w.
  - simpl. by rewrite extend_nil.
  - cbn [AppGeminiOnly.show_items]. rewrite bind_show, IH, extend_extend. reflexivity.
Qed.

Lemma show_estimate_run e w :
  AppGeminiOnly.show_estimate e w
  = (inr tt, Behaviour.extend (map Shown (Behaviour.display e)) w).
Proof.
  unfold AppGeminiOnly.show_estimate, Behaviour.display.
  rewrite !bind_show, !extend_extend.
  assert (match AppGeminiOnly.items e with
          | [] => show (StWarning (lit "No items detected."))
          | l => AppGeminiOnly.show_items l
          end (Behaviour.extend
                 ([Shown (StSuccess (lit "Analysis Complete!"))]
                  ++ [Shown (StMetric (lit "Calories") (AppGeminiOnly.total_calories_kcal e))]
                  ++ [Shown (StMetric (lit "Protein") (AppGeminiOnly.total_protein_g e))]
                  ++ [Shown (StMetric (lit "Carbs") (AppGeminiOnly.total_carbs_g e))]
                  ++ [Shown (StMetric (lit "Fat") (AppGeminiOnly.total_fat_g e))]) w)
          = (inr tt,
             Behaviour.extend
               (map Shown
                  ([ StSuccess (lit "Analysis Complete!");
                     StMetric (lit "Calories") (AppGeminiOnly.total_calories_kcal e);
                     StMetric (lit "Protein") (AppGeminiOnly.total_protein_g e);
                     StMetric (lit "Carbs") (AppGeminiOnly.total_carbs_g e);
                     StMetric (lit "Fat") (AppGeminiOnly.total_fat_g e) ]
                   ++ match AppGeminiOnly.items e with
                      | [] => [StWarning (lit "No items detected.")]
                      | l => map Behaviour.item_row l
                      end)) w)) as Hrows.
  { destruct (AppGeminiOnly.items e) as [|item r].
    - rewrite show_run, extend_extend. reflexivity.
    - rewrite show_items_run, extend_extend. by rewrite map_app. }
  rewrite (bind_run _ _ _ _ _ Hrows).
  destruct (AppGeminiOnly.truthy_opt (AppGeminiOnly.notes e)).
  - rewrite show_run, extend_extend. by rewrite app_assoc, !map_app.
  - unfold mret, M_ret, ret. by rewrite app_nil_r.
Qed.

Lemma ask_and_show_answer sv c p w :
  ∃ outcome pre,
    AppGeminiOnly.ask_and_show sv (Some c) p w
    = (outcome,
       Behaviour.extend
         ([ Shown (StWrite (lit "Saved temporary file: " ++ p));
            Shown (StWrite (lit "Sending to Gemini for analysis..."));
            FilesUpload p ] ++ pre) w)
    ∧ Behaviour.gemini_answer_events sv c p (fs w !! p)
      = pre ++ match outcome with
               | inl x => [Shown (StError (lit "An error occurred: ") (Some x))]
               | inr _ => []
               end.
Proof.
  unfold AppGeminiOnly.ask_and_show, Behaviour.gemini_answer_events.
  rewrite !bind_show, extend_extend. unfold mbind, M_bind, bind.
  rewrite estimate_outcome. simpl fs.
  destruct (genai_upload sv (api_key c) p (fs w !! p)) as [x|f].
  { exists (inl x), []. rewrite extend_extend. split; reflexivity. }
  destruct (genai_generate _ _ _ _ _ _) as [x|t].
  { exists (inl x), [GenerateContent (lit "gemini-2.5-pro") f].
    rewrite extend_extend. split; reflexivity. }
  destruct (AppGeminiOnly.model_validate_json t) as [x|est].
  { exists (inl x), [GenerateContent (lit "gemini-2.5-pro") f].
    rewrite extend_extend. split; reflexivity. }
  exists (inr tt),
    (GenerateContent (lit "gemini-2.5-pro") f :: map Shown (Behaviour.display est)).
  rewrite show_estimate_run, !extend_extend. split; [reflexivity|].
  by rewrite app_nil_r.
Qed.

Lemma analyze_run sv c up p rest w :
  fresh_name (fs w) (lit "." ++ last_part (Py.split (ch ".") (Streamlit.name up)))
    (names w) = Some (p, rest)
  → disk_full w = false
  → AppGeminiOnly.analyze sv (Some c) up w
    = (inr tt,
       {| fs := fs w; names := rest; disk_full := false;
          trace := trace w
                   ++ [ TempCreated p; TempWritten p (getvalue up);
                        Shown (StWrite (lit "Saved temporary file: " ++ p));
                        Shown (StWrite (lit "Sending to Gemini for analysis..."));
                        FilesUpload p ]
                   ++ Behaviour.gemini_answer_events sv c p (Some (getvalue up))
                   ++ [ Removed p;
                        Shown (StWrite (lit "Cleanup: Temporary file removed.")) ] |}).
Proof.
  intros Hfresh Hdisk. pose proof (fresh_name_fresh _ _ _ _ _ Hfresh) as Hnew.
  unfold AppGeminiOnly.analyze.
  rewrite (save_temp_creates _ _ _ _ _ Hfresh), Hdisk.
  set (w1 := log (TempWritten _ _) _).
  destruct (ask_and_show_answer sv c p w1) as (outcome & pre & -> & Hev).
  assert (fs w1 !! p = Some (getvalue up)) as Hp by apply lookup_insert_eq.
  rewrite Hp in Hev. rewrite Hev. clear Hev.
  set (w2 := Behaviour.extend _ w1).
  assert (∃ h,
            match outcome with
            | inl e => show (StError (lit "An error occurred: ") (Some e)) w2
            | inr _ => (inr tt, w2)
            end
            = (inr h,
               Behaviour.extend
                 match outcome with
                 | inl x => [Shown (StError (lit "An error occurred: ") (Some x))]
                 | inr _ => []
                 end w2)) as (h & ->).
  { destruct outcome as [x|u]; [by exists tt|]. exists tt. by rewrite extend_nil. }
  destruct h. unfold AppGeminiOnly.cleanup, path_exists, remove.
  unfold mbind, M_bind, bind.
  rewrite bool_decide_true by (simpl; rewrite lookup_insert_eq; eauto).
  simpl. f_equal. unfold Behaviour.extend, log, set_fs. simpl. rewrite Hdisk. f_equal.
  - rewrite insert_insert_eq. by apply delete_insert_id.
  - by rewrite <- !app_assoc.
Qed.



(** One press of the Analyze button on the gemini-only page, when the upload
    could be saved: the run ends normally; the page shows, in this order,
    that it saved the file and is sending it, then the estimate or the error
    that ended the attempt, then that it cleaned up; the provider is sent
    the saved file, whose content is the uploaded bytes; and the temporary
    file is removed last, so the files after the run are those before it. *)
Theorem gemini_page_run (sv : Services) (c : Client) (up : UploadedFile) (e p : str)
    (rest : list str) (w : World) :
  extension (Streamlit.name up) = Some e
  → e ∈ [lit "jpg"; lit "jpeg"; lit "png"; lit "webp"]
  → fresh_name (fs w) (lit "." ++ last_part (Py.split (ch ".") (Streamlit.name up)))
      (names w) = Some (p, rest)
  → disk_full w = false
  → AppGeminiOnly.main sv (Some c) (Some up) true w
    = (inr tt,
       {| fs := fs w; names := rest; disk_full := false;
          trace := trace w
                   ++ [ Shown (StWrite (lit "Processing image..."));
                        TempCreated p; TempWritten p (getvalue up);
                        Shown (StWrite (lit "Saved temporary file: " ++ p));
                        Shown (StWrite (lit "Sending to Gemini for analysis..."));
                        FilesUpload p ]
                   ++ Behaviour.gemini_answer_events sv c p (Some (getvalue up))
                   ++ [ Removed p;
                        Shown (StWrite (lit "Cleanup: Temporary file removed.")) ] |}).
Proof.
  intros He Hin Hfresh Hdisk. unfold AppGeminiOnly.main.
  rewrite (file_uploader_accepts _ _ _ He Hin), bind_show.
  rewrite (analyze_run sv c up p rest (Behaviour.extend _ w) Hfresh Hdisk).
  simpl. by rewrite <- !app_assoc.
Qed.

(** When the disk takes the writes, a run of the gemini-only page leaves the
    files as they were, whatever was uploaded and however the request ended. *)
Theorem gemini_page_restores_files (sv : Services) (client : option Client)
    (chosen : option UploadedFile) (analyze_button : bool) (w : World) :
  disk_full w = false
  → fs (AppGeminiOnly.main sv client chosen analyze_button w).2 = fs w.
Proof.
  intros Hdisk. unfold AppGeminiOnly.main. destruct client as [c|]; [|reflexivity].
  destruct (file_uploader _ chosen) as [up|]; [|reflexivity].
  destruct analyze_button; [|reflexivity]. rewrite bind_show.
  set (w' := Behaviour.extend _ w).
  destruct (fresh_name (fs w')
              (lit "." ++ last_part (Py.split (ch ".") (Streamlit.name up))) (names w'))
    as [[p rest]|] eqn:Hfresh.
  - by rewrite (analyze_removes_temporary_file _ _ _ _ _ _ Hfresh Hdisk).
  - unfold AppGeminiOnly.analyze. by rewrite (save_temp_no_name _ _ _ Hfresh).
Qed.


(** ** What the page shows of an estimate *)

Lemma filter_rows l :
  List.filter Behaviour.is_row (map Shown (map Behaviour.item_row l))
  = map Shown (map Behaviour.item_row l).
Proof. induction l as [|item r IH]; simpl; [done|]. by rewrite IH. Qed.

Lemma no_warning_in_rows msg l :
  Shown (StWarning msg) ∉ map Shown (map Behaviour.item_row l).
Proof.
  induction l as [|item r IH]; simpl; [apply not_elem_of_nil|].
  intros [Heq|Hin]%elem_of_cons; [discriminate|done].
Qed.

Lemma no_info_in_rows msg l :
  Shown (StInfo msg) ∉ map Shown (map Behaviour.item_row l).
Proof.
  induction l as [|item r IH]; simpl; [apply not_elem_of_nil|].
  intros [Heq|Hin]%elem_of_cons; [discriminate|done].
Qed.

Lemma no_metric_in_rows l :
  List.filter Behaviour.is_metric (map Shown (map Behaviour.item_row l)) = [].
Proof. induction l; done. Qed.

Lemma truthy_opt_text (n : option str) :
  AppGeminiOnly.truthy_opt n = true ↔ ∃ t, n = Some t ∧ t ≠ [].
Proof.
  destruct n as [[|x t]|]; simpl.
  - split; [done|]. intros (t' & [= <-] & Hne). done.
  - split; [|done]. intros _. by eexists.
  - split; [done|]. by intros (t' & [=] & _).
Qed.

(** [show_estimate] shows the answer's four totals as they are, then one row
    per item, in the order of the items, each with the item's own numbers;
    the warning that no items were detected appears exactly when there is no
    item, and the notes exactly when they are a non-empty text. *)
Theorem estimate_display (e : AppGeminiOnly.NutritionEstimate) (w : World) :
  ∃ evs,
    AppGeminiOnly.show_estimate e w = (inr tt, Behaviour.extend evs w)
    ∧ List.filter Behaviour.is_metric evs
      = [ Shown (StMetric (lit "Calories") (AppGeminiOnly.total_calories_kcal e));
          Shown (StMetric (lit "Protein") (AppGeminiOnly.total_protein_g e));
          Shown (StMetric (lit "Carbs") (AppGeminiOnly.total_carbs_g e));
          Shown (StMetric (lit "Fat") (AppGeminiOnly.total_fat_g e)) ]
    ∧ List.filter Behaviour.is_row evs
      = map Shown (map Behaviour.item_row (AppGeminiOnly.items e))
    ∧ (Shown (StWarning (lit "No items detected.")) ∈ evs ↔ AppGeminiOnly.items e = [])
    ∧ (∀ msg, Shown (StInfo msg) ∈ evs
         ↔ ∃ n, AppGeminiOnly.notes e = Some n ∧ n ≠ [] ∧ msg = lit "**Notes:** " ++ n).
Proof.
  exists (map Shown (Behaviour.display e)). split; [apply show_estimate_run|].
  unfold Behaviour.display. rewrite !map_app.
  set (head := map Shown [StSuccess _; _; _; _; _]).
  set (rows := map Shown match AppGeminiOnly.items e with [] => _ | _ => _ end).
  set (tail := map Shown (if AppGeminiOnly.truthy_opt _ then _ else _)).
  assert (List.filter Behaviour.is_metric tail = [] ∧ List.filter Behaviour.is_row tail = []
          ∧ (∀ msg, Shown (StWarning msg) ∉ tail)
          ∧ ∀ msg, Shown (StInfo msg) ∈ tail
                   ↔ ∃ n, AppGeminiOnly.notes e = Some n ∧ n ≠ []
                          ∧ msg = lit "**Notes:** " ++ n) as (Ht1 & Ht2 & Ht3 & Ht4).
  { subst tail. pose proof (truthy_opt_text (AppGeminiOnly.notes e)) as Ht.
    destruct (AppGeminiOnly.truthy_opt (AppGeminiOnly.notes e)); simpl.
    - destruct Ht as [Ht _]. destruct (Ht eq_refl) as (n & Hn & Hne). rewrite Hn. simpl.
      repeat split; try done.
      + intros msg [Heq|Hin]%elem_of_cons; [discriminate|by apply elem_of_nil in Hin].
      + intros [Heq|Hin]%elem_of_cons; [|by apply elem_of_nil in Hin].
        injection Heq as ->. eauto.
      + intros (n' & [= <-] & _ & ->). apply list_elem_of_here.
    - repeat split; try done.
      + intros msg Hin. by apply elem_of_nil in Hin.
      + intros Hin. by apply elem_of_nil in Hin.
      + intros (n & Hn & Hne & _). destruct Ht as [_ Ht].
        assert (false = true) by eauto. done. }
  assert (List.filter Behaviour.is_metric rows = []
          ∧ List.filter Behaviour.is_row rows
            = map Shown (map Behaviour.item_row (AppGeminiOnly.items e))
          ∧ (Shown (StWarning (lit "No items detected.")) ∈ rows
             ↔ AppGeminiOnly.items e = [])
          ∧ ∀ msg, Shown (StInfo msg) ∉ rows) as (Hr1 & Hr2 & Hr3 & Hr4).
  { subst rows. destruct (AppGeminiOnly.items e) as [|item r].
    - simpl. repeat split; try done.
      + intros _. apply list_elem_of_here.
      + intros msg [Heq|Hin]%elem_of_cons; [discriminate|by apply elem_of_nil in Hin].
    - repeat split.
      + apply no_metric_in_rows.
      + apply filter_rows.
      + intros Hin. by apply no_warning_in_rows in Hin.
      + done.
      + intros msg. apply no_info_in_rows. }
  rewrite !List.filter_app, Ht1, Ht2, Hr1, Hr2, !app_nil_r.
  split; [reflexivity|]. split; [reflexivity|]. split.
  - rewrite !elem_of_app, Hr3. split; [|by intros ?; right; left].
    intros [Hin|[Hin|Hin]]; [|done|by apply Ht3 in Hin].
    subst head. simpl in Hin.
    repeat (apply elem_of_cons in Hin as [Hin|Hin]; [discriminate|]).
    by apply elem_of_nil in Hin.
  - intros msg. rewrite !elem_of_app, <- Ht4. split; [|by intros ?; right; right].
    intros [Hin|[Hin|Hin]]; [|by apply Hr4 in Hin|done].
    subst head. simpl in Hin.
    repeat (apply elem_of_cons in Hin as [Hin|Hin]; [discriminate|]).
    by apply elem_of_nil in Hin.
Qed.

(** ** The two-step page of app.py *)

Lemma app_build_outcome sv c image_path w :
  App.build_food_query_from_image sv (Some c) image_path w
  = match genai_upload sv (api_key c) image_path (fs w !! image_path) with
    | inl x => (inl x, Behaviour.extend [FilesUpload image_path] w)
    | inr f =>
        (match genai_generate sv (api_key c) (lit "gemini-2.5-flash") App.prompt f None with
         | inl x => inl x
         | inr t =>
             if truthy (Py.strip (default [] t)) then inr (App.query_of t)
             else inl (RuntimeError (lit "Gemini returned an empty query."))
         end,
         Behaviour.extend
           [FilesUpload image_path; GenerateContent (lit "gemini-2.5-flash") f] w)
    end.
Proof.
  unfold App.build_food_query_from_image. run.
  destruct (genai_upload _ _ _ _) as [x|f]; simpl; [done|].
  rewrite !log_extend, extend_extend.
  destruct (genai_generate _ _ _ _ _ _) as [x|t]; simpl; [done|].
  rewrite query_of_truthy. by destruct (truthy (Py.strip (default [] t))).
Qed.

Lemma main_build_outcome sv c image_path w :
  Main.build_food_query_from_image sv c image_path w
  = match genai_upload sv (api_key c) image_path (fs w !! image_path) with
    | inl x => (inl x, Behaviour.extend [FilesUpload image_path] w)
    | inr f =>
        (match genai_generate sv (api_key c) (lit "gemini-3-pro") App.prompt f None with
         | inl x => inl x
         | inr t =>
             if truthy (Py.strip (default [] t)) then inr (App.query_of t)
             else inl (RuntimeError
                         (lit "Gemini returned an empty query. Try another image or prompt."))
         end,
         Behaviour.extend
           [FilesUpload image_path; GenerateContent (lit "gemini-3-pro") f] w)
    end.
Proof.
  unfold Main.build_food_query_from_image. run.
  destruct (genai_upload _ _ _ _) as [x|f]; simpl; [done|].
  rewrite !log_extend, extend_extend.
  destruct (genai_generate _ _ _ _ _ _) as [x|t]; simpl; [done|].
  rewrite query_of_truthy. by destruct (truthy (Py.strip (default [] t))).
Qed.


Lemma fetch_exact sv key message query w :
  fetch sv key message query w
  = (Behaviour.database_answer sv key message query,
     Behaviour.extend [HttpGet (api_url ++ quote query)] w).
Proof.
  unfold fetch, Behaviour.database_answer. run.
  destruct (http_get sv _ key) as [e|resp]; simpl; [done|].
  case_bool_decide; simpl; [done|].
  destruct (loads (text resp)) as [d|]; simpl; [|done].
  destruct (get d _ _) as [e|its]; simpl; [done|].
  by destruct (sum_calories its).
Qed.

Lemma call_calorieninjas_exact sv key query w :
  App.call_calorieninjas sv key query w
  = (match Behaviour.database_answer sv key Behaviour.app_message query with
     | inl x => inl x
     | inr r => inr (r.1.1, r.2)
     end,
     Behaviour.extend [HttpGet (api_url ++ quote query)] w).
Proof.
  unfold App.call_calorieninjas, mbind, M_bind, bind.
  change (λ resp, lit "CalorieNinjas error " ++ str_of_Z (status_code resp)
                  ++ lit ": " ++ text resp) with Behaviour.app_message.
  rewrite fetch_exact. by destruct (Behaviour.database_answer _ _ _ _).
Qed.

Lemma get_calories_exact sv environ query w :
  Main.get_calories_from_query sv environ query w
  = (match Behaviour.database_answer sv (Some (Main.CALORIE_NINJAS_API_KEY environ))
             Behaviour.main_message query with
     | inl x => inl x
     | inr r => inr (r.2, r.1.2)
     end,
     Behaviour.extend [HttpGet (api_url ++ quote query)] w).
Proof.
  unfold Main.get_calories_from_query, mbind, M_bind, bind.
  change (λ resp, lit "CalorieNinjas error: " ++ str_of_Z (status_code resp)
                  ++ lit " " ++ text resp) with Behaviour.main_message.
  rewrite fetch_exact. by destruct (Behaviour.database_answer _ _ _ _).
Qed.


Lemma app_rest_run sv environ g k p w :
  App.GEMINI_API_KEY environ = Some g → truthy g = true
  → App.CALORIE_NINJAS_API_KEY environ = Some k
  → try_except
      (query ← App.build_food_query_from_image sv
                  (App.client (App.GEMINI_API_KEY environ)) p;
       show (StWrite query);;
       r ← App.call_calorieninjas sv (App.CALORIE_NINJAS_API_KEY environ) query;
       show (StMetric (lit "Total") r.2);;
       show (StJson r.1))
      (λ e, show (StError (lit "Error: ") (Some e))) w
    = (inr tt,
       Behaviour.extend
         (FilesUpload p :: Behaviour.app_answer_events sv g k p (fs w !! p)) w).
Proof.
  intros HG Hg HK. rewrite HG, HK. unfold App.client. rewrite Hg.
  rewrite try_except_bind, app_build_outcome. simpl api_key.
  unfold Behaviour.app_answer_events.
  destruct (genai_upload sv g p (fs w !! p)) as [x|f].
  { rewrite show_run, extend_extend. reflexivity. }
  destruct (genai_generate sv g _ _ f None) as [x|t].
  { rewrite show_run, extend_extend. reflexivity. }
  destruct (truthy (Py.strip (default [] t))).
  2: { rewrite show_run, extend_extend. reflexivity. }
  unfold try_except. rewrite bind_show, extend_extend.
  unfold mbind at 1, M_bind, bind. rewrite call_calorieninjas_exact.
  destruct (Behaviour.database_answer sv (Some k) Behaviour.app_message (App.query_of t))
    as [x|r].
  - rewrite show_run, !extend_extend. reflexivity.
  - rewrite bind_show, show_run, !extend_extend. reflexivity.
Qed.

(** One press of the Estimate button on the page of app.py, with both keys
    set, an image in the uploader and a disk that takes the write.  The image
    is saved under a name that ends in [.png] whatever its type, and that
    file, holding the uploaded bytes, is what the provider is sent.  The
    nutrition database is asked only after the provider gave a query that is
    not blank, and for that query.  The first failure is shown as the one
    error of the run, which ends normally; the file stays. *)
Theorem app_page_run (sv : Services) (environ : gmap str str)
    (chosen : option UploadedFile) (image : UploadedFile) (g k p : str)
    (rest : list str) (w : World) :
  App.GEMINI_API_KEY environ = Some g → truthy g = true
  → App.CALORIE_NINJAS_API_KEY environ = Some k → truthy k = true
  → file_uploader [lit "png"; lit "jpg"; lit "jpeg"] chosen = Some image
  → fresh_name (fs w) (lit ".png") (names w) = Some (p, rest)
  → disk_full w = false
  → (∃ n, n ∈ names w ∧ p = tempdir ++ n ++ lit ".png")
    ∧ App.page sv environ chosen true w
      = (inr tt,
         {| fs := <[p := getvalue image]> (fs w); names := rest; disk_full := false;
            trace := trace w
                     ++ [TempCreated p; TempWritten p (getvalue image); FilesUpload p]
                     ++ Behaviour.app_answer_events sv g k p (Some (getvalue image)) |}).
Proof.
  intros HG Hg HK Hk Hup Hfresh Hdisk. split.
  { clear -Hfresh. revert Hfresh. generalize (names w).
    induction l as [|n r IH]; simpl; [done|].
    case_bool_decide.
    - intros (n' & Hin & ->)%IH. exists n'. split; [by apply list_elem_of_further|done].
    - intros [= <- <-]. exists n. split; [apply list_elem_of_here|done]. }
  assert (App.truthy_opt (App.GEMINI_API_KEY environ) = true) as HGt
    by (by rewrite HG).
  assert (App.truthy_opt (App.CALORIE_NINJAS_API_KEY environ) = true) as HKt
    by (by rewrite HK).
  unfold App.page. rewrite HGt, HKt, Hup, !ret_bind.
  unfold App.estimate_button. rewrite HGt, HKt.
  change (negb (true && true)) with false. cbv iota.
  rewrite try_except_bind, (save_temp_creates _ _ _ _ _ Hfresh), Hdisk.
  set (w1 := log (TempWritten _ _) _).
  rewrite (app_rest_run sv environ g k p w1 HG Hg HK).
  assert (fs w1 !! p = Some (getvalue image)) as -> by apply lookup_insert_eq.
  f_equal. subst w1. unfold Behaviour.extend, log, set_fs, set_names. simpl.
  rewrite Hdisk, insert_insert_eq. f_equal. by rewrite <- !app_assoc.
Qed.

(** ** The console script of main.py *)

Lemma bind_path_exists {B} path (k : bool → M B) w :
  (path_exists path ≫= k) w = k (bool_decide (is_Some (fs w !! path))) w.
Proof. reflexivity. Qed.

Lemma main_run sv environ c w :
  Main.main sv environ c w
  = if bool_decide (is_Some (fs w !! Main.image_path)) then
      let analyzing := Shown (Print (lit "Analyzing image: " ++ Main.image_path) []) in
      let up := FilesUpload Main.image_path in
      match genai_upload sv (api_key c) Main.image_path (fs w !! Main.image_path) with
      | inl x => (inl x, Behaviour.extend [analyzing; up] w)
      | inr f =>
          let gen := GenerateContent (lit "gemini-3-pro") f in
          match genai_generate sv (api_key c) (lit "gemini-3-pro") App.prompt f None with
          | inl x => (inl x, Behaviour.extend [analyzing; up; gen] w)
          | inr t =>
              if truthy (Py.strip (default [] t)) then
                let q := App.query_of t in
                let asked :=
                  [ analyzing; up; gen;
                    Shown (Print (lit "Gemini food query: " ++ q) []);
                    HttpGet (api_url ++ quote q) ] in
                match Behaviour.database_answer sv
                        (Some (Main.CALORIE_NINJAS_API_KEY environ))
                        Behaviour.main_message q with
                | inl x => (inl x, Behaviour.extend asked w)
                | inr r =>
                    (inr tt,
                     Behaviour.extend
                       (asked
                        ++ (if json_truthy r.1.2 then []
                            else [Shown (Print (lit "No food items returned from CalorieNinjas.") [])])
                        ++ [ Shown (Print (lit "Estimated total calories: ") [r.2]);
                             Shown (StJson r.1.2) ]) w)
                end
              else
                (inl (RuntimeError
                        (lit "Gemini returned an empty query. Try another image or prompt.")),
                 Behaviour.extend [analyzing; up; gen] w)
          end
      end
    else (inl (FileNotFoundError (lit "Image not found: " ++ Main.image_path)), w).
Proof.
  unfold Main.main. rewrite bind_path_exists.
  destruct (bool_decide (is_Some (fs w !! Main.image_path))); [|reflexivity].
  change (negb true) with false. cbv iota zeta. rewrite bind_show.
  unfold mbind at 1, M_bind, bind. rewrite main_build_outcome. simpl fs.
  destruct (genai_upload _ _ _ _) as [x|f]; [by rewrite extend_extend|].
  destruct (genai_generate _ _ _ _ _ _) as [x|t]; [by rewrite extend_extend|].
  destruct (truthy (Py.strip (default [] t))); [|by rewrite extend_extend].
  rewrite bind_show. unfold mbind at 1, M_bind, bind. rewrite get_calories_exact.
  destruct (Behaviour.database_answer _ _ _ _) as [x|r]; [by rewrite !extend_extend|].
  cbn [fst snd]. destruct (json_truthy r.1.2); unfold negb; cbv iota.
  - change (ret ()) with (mret () : M ()).
    rewrite ret_bind, bind_show, show_run, !extend_extend. reflexivity.
  - rewrite !bind_show, show_run, !extend_extend. reflexivity.
Qed.

(** main.py has no handler: the first step that fails ends the script with
    its exception, and no later step is attempted.  A credential check that
    fails, or a missing image, ends it before anything is sent; a failed
    upload before the generation request; a failed or blank generation
    before the nutrition database is asked; and the database is asked for
    the query that the provider gave.  Only when every step succeeded does
    the script print the total and end normally. *)
Theorem main_script_stops_at_first_failure (sv : Services) (environ : gmap str str)
    (w : World) :
  (∀ x, Main.client environ = inl x → Main.script sv environ w = (inl x, w))
  ∧ ∀ c, Main.client environ = inr c →
      (fs w !! Main.image_path = None
       → Main.script sv environ w
         = (inl (FileNotFoundError (lit "Image not found: " ++ Main.image_path)), w))
      ∧ ∀ content, fs w !! Main.image_path = Some content →
          let analyzing := Shown (Print (lit "Analyzing image: " ++ Main.image_path) []) in
          let up := FilesUpload Main.image_path in
          (∀ x, genai_upload sv (api_key c) Main.image_path (Some content) = inl x
                → Main.script sv environ w = (inl x, Behaviour.extend [analyzing; up] w))
          ∧ ∀ f, genai_upload sv (api_key c) Main.image_path (Some content) = inr f →
              let gen := GenerateContent (lit "gemini-3-pro") f in
              let answer := genai_generate sv (api_key c) (lit "gemini-3-pro") App.prompt f
                              None in
              (∀ x, answer = inl x
                    → Main.script sv environ w
                      = (inl x, Behaviour.extend [analyzing; up; gen] w))
              ∧ ∀ t, answer = inr t →
                  (truthy (Py.strip (default [] t)) = false
                   → Main.script sv environ w
                     = (inl (RuntimeError
                               (lit "Gemini returned an empty query. Try another image or prompt.")),
                        Behaviour.extend [analyzing; up; gen] w))
                  ∧ (truthy (Py.strip (default [] t)) = true →
                     let q := App.query_of t in
                     let asked :=
                       [ analyzing; up; gen;
                         Shown (Print (lit "Gemini food query: " ++ q) []);
                         HttpGet (api_url ++ quote q) ] in
                     let db := Behaviour.database_answer sv
                                 (Some (Main.CALORIE_NINJAS_API_KEY environ))
                                 Behaviour.main_message q in
                     (∀ x, db = inl x
                           → Main.script sv environ w = (inl x, Behaviour.extend asked w))
                     ∧ ∀ data items total, db = inr (data, items, total)
                         → Main.script sv environ w
                           = (inr tt,
                              Behaviour.extend
                                (asked
                                 ++ (if json_truthy items then []
                                     else [Shown (Print (lit "No food items returned from CalorieNinjas.") [])])
                                 ++ [ Shown (Print (lit "Estimated total calories: ") [total]);
                                      Shown (StJson items) ]) w)).
Proof.
  split.
  { intros x Hc. unfold Main.script, answer, mbind, M_bind, bind. by rewrite Hc. }
  intros c Hc.
  assert (Main.script sv environ w = Main.main sv environ c w) as ->.
  { unfold Main.script, answer, mbind, M_bind, bind. by rewrite Hc. }
  rewrite main_run. split.
  { intros Hno. rewrite bool_decide_false; [done|]. rewrite Hno. by intros [? ?]. }
  intros content Hc'. rewrite bool_decide_true by (rewrite Hc'; eauto).
  rewrite Hc'. cbv zeta. split; [by intros x ->|].
  intros f ->. split; [by intros x ->|].
  intros t ->. split; [by intros ->|].
  intros ->. split; [by intros x ->|].
  by intros data items total ->.
Qed.

(** ** More on validation *)

Lemma obj_get_cons_ne k k' v o : k ≠ k' → obj_get k' ((k, v) :: o) = obj_get k' o.
Proof.
  intros Hne. simpl. destruct (obj_get k' o); [done|]. by rewrite decide_False.
Qed.

Lemma obj_get_app_undeclared k' extras o :
  Forall (λ kv : str * json, kv.1 ≠ k') extras → obj_get k' (extras ++ o) = obj_get k' o.
Proof.
  induction 1 as [|[k v] r Hk _ IH]; [done|].
  rewrite <- app_comm_cons, obj_get_cons_ne; done.
Qed.

Lemma required_agree {A} o o' loc k (v : validator A) a :
  obj_get k o' = obj_get k o → required o loc k v = inr a → required o' loc k v = inr a.
Proof. unfold required. intros ->. by destruct (obj_get k o). Qed.

Lemma with_default_agree {A} o o' loc k (v : validator A) d :
  obj_get k o' = obj_get k o → with_default o' loc k v d = with_default o loc k v d.
Proof. unfold with_default. by intros ->. Qed.

Lemma v_FoodItem_agree loc o o' it :
  (∀ k, k ∈ Behaviour.item_fields → obj_get k o' = obj_get k o)
  → AppGeminiOnly.v_FoodItem loc (JObj o) = inr it
  → AppGeminiOnly.v_FoodItem loc (JObj o') = inr it.
Proof.
  intros Hag. unfold AppGeminiOnly.v_FoodItem. intros H. split_ap H. injection H as <-.
  unfold Behaviour.item_fields, Spec.item_keys in Hag. simpl in Hag.
  rewrite (with_default_agree o o') by (apply Hag; set_solver).
  repeat match goal with
    | H : required o ?loc ?k ?v = inr ?a |- _ =>
        rewrite (required_agree o o' loc k v a (Hag k ltac:(set_solver)) H); clear H
    end.
  match goal with H : with_default _ _ _ _ _ = inr _ |- _ => by rewrite H end.
Qed.

Lemma v_NutritionEstimate_agree loc o o' e :
  (∀ k, k ∈ Behaviour.estimate_fields → obj_get k o' = obj_get k o)
  → AppGeminiOnly.v_NutritionEstimate loc (JObj o) = inr e
  → AppGeminiOnly.v_NutritionEstimate loc (JObj o') = inr e.
Proof.
  intros Hag. unfold AppGeminiOnly.v_NutritionEstimate. intros H. split_ap H.
  injection H as <-.
  unfold Behaviour.estimate_fields, Spec.estimate_keys in Hag. simpl in Hag.
  rewrite (with_default_agree o o') by (apply Hag; set_solver).
  repeat match goal with
    | H : required o ?loc ?k ?v = inr ?a |- _ =>
        rewrite (required_agree o o' loc k v a (Hag k ltac:(set_solver)) H); clear H
    end.
  match goal with H : with_default _ _ _ _ _ = inr _ |- _ => by rewrite H end.
Qed.

(** Validation reads only the members that the models declare, each by its
    name: when a document is accepted, a document that holds the same values
    under the declared names is accepted as the same estimate, whatever else
    it holds and in whatever order.  So members that the schema does not
    name, in the answer or in one of its items, are ignored without error. *)
Theorem validation_ignores_undeclared_members (loc : list loc_item)
    (o extras : list (str * json)) :
  Forall (λ kv : str * json, kv.1 ∉ Behaviour.estimate_fields ++ Behaviour.item_fields)
    extras
  → (∀ e, AppGeminiOnly.v_NutritionEstimate loc (JObj o) = inr e
          → AppGeminiOnly.v_NutritionEstimate loc (JObj (extras ++ o)) = inr e
            ∧ AppGeminiOnly.v_NutritionEstimate loc (JObj (o ++ extras)) = inr e)
    ∧ (∀ it, AppGeminiOnly.v_FoodItem loc (JObj o) = inr it
             → AppGeminiOnly.v_FoodItem loc (JObj (extras ++ o)) = inr it
               ∧ AppGeminiOnly.v_FoodItem loc (JObj (o ++ extras)) = inr it).
Proof.
  intros Hex.
  assert (∀ k, k ∈ Behaviour.estimate_fields ++ Behaviour.item_fields
               → obj_get k (extras ++ o) = obj_get k o
                 ∧ obj_get k (o ++ extras) = obj_get k o) as Hag.
  { intros k Hk.
    assert (Forall (λ kv : str * json, kv.1 ≠ k) extras) as Hne.
    { eapply Forall_impl; [exact Hex|]. intros [k' v] Hk' Heq. simpl in *.
      by subst k'. }
    split; [by apply obj_get_app_undeclared|].
    assert (obj_get k extras = None) as Hnone.
    { clear -Hne. induction Hne as [|[k' v] r Hk' _ IH]; [done|].
      simpl in *. rewrite IH. by rewrite decide_False. }
    clear -Hnone. induction o as [|[k' v] r IH]; simpl; [done|]. by rewrite IH. }
  split.
  - intros e He. split; (eapply v_NutritionEstimate_agree; [|exact He]);
      intros k Hk; apply Hag; set_solver.
  - intros it Hit. split; (eapply v_FoodItem_agree; [|exact Hit]);
      intros k Hk; apply Hag; set_solver.
Qed.

Lemma reports_ap_l {A B} le (f : result (A → B)) (x : result A) :
  Behaviour.reports le f → Behaviour.reports le (f <*> x).
Proof.
  destruct f as [e1|g], x as [e2|a]; simpl; try done.
  rewrite elem_of_app. auto.
Qed.

Lemma reports_ap_r {A B} le (f : result (A → B)) (x : result A) :
  Behaviour.reports le x → Behaviour.reports le (f <*> x).
Proof.
  destruct f as [e1|g], x as [e2|a]; simpl; try done.
  rewrite elem_of_app. auto.
Qed.

Lemma required_reports_missing {A} o loc k (v : validator A) :
  obj_get k o = None
  → Behaviour.reports (Behaviour.missing_at (loc ++ [LField k]) o) (required o loc k v).
Proof. intros Hk. unfold required. rewrite Hk. simpl. apply list_elem_of_here. Qed.

Lemma required_reports_inner {A} le o loc k (v : validator A) j :
  obj_get k o = Some j
  → Behaviour.reports le (v (loc ++ [LField k]) j)
  → Behaviour.reports le (required o loc k v).
Proof. intros Hk. unfold required. by rewrite Hk. Qed.

Ltac find_report :=
  repeat first
    [ apply reports_ap_r; apply required_reports_missing; assumption
    | apply reports_ap_l ].

Lemma v_FoodItem_reports loc o k :
  k ∈ Spec.item_keys → obj_get k o = None
  → Behaviour.reports (Behaviour.missing_at (loc ++ [LField k]) o)
      (AppGeminiOnly.v_FoodItem loc (JObj o)).
Proof.
  intros Hin Hk. unfold AppGeminiOnly.v_FoodItem. unfold Spec.item_keys in Hin.
  repeat (apply elem_of_cons in Hin as [->|Hin]; [by find_report|]).
  by apply elem_of_nil in Hin.
Qed.

Lemma v_elements_reports {A} le (v : validator A) loc n l i j :
  l !! i = Some j
  → Behaviour.reports le (v (loc ++ [LIndex (n + i)]) j)
  → Behaviour.reports le (v_elements v loc n l).
Proof.
  revert n i. induction l as [|x r IH]; intros n i Hi Hr; [done|].
  rewrite v_elements_cons. destruct i as [|i]; simpl in Hi.
  - injection Hi as ->. rewrite Nat.add_0_r in Hr.
    by apply reports_ap_l, reports_ap_r.
  - apply reports_ap_r. apply (IH (S n) i Hi).
    by replace (S n + i)%nat with (n + S i)%nat by lia.
Qed.

(** Validation gathers the errors of all fields: when a response fails, the
    error holds one [missing] entry for every required field that is absent,
    of the estimate and of each item, at that field's place: the field's
    name, and for a field of an item [items], the item's index and the
    field's name. *)
Theorem every_missing_field_is_reported (o : list (str * json)) :
  (∀ k, k ∈ Spec.estimate_keys → obj_get k o = None
        → Behaviour.reports (Behaviour.missing_at [LField k] o)
            (AppGeminiOnly.v_NutritionEstimate [] (JObj o)))
  ∧ ∀ l i oi k,
      obj_get (lit "items") o = Some (JArr l) → l !! i = Some (JObj oi)
      → k ∈ Spec.item_keys → obj_get k oi = None
      → Behaviour.reports
          (Behaviour.missing_at [LField (lit "items"); LIndex i; LField k] oi)
          (AppGeminiOnly.v_NutritionEstimate [] (JObj o)).
Proof.
  split.
  - intros k Hin Hk. unfold AppGeminiOnly.v_NutritionEstimate.
    unfold Spec.estimate_keys in Hin.
    repeat (apply elem_of_cons in Hin as [->|Hin]; [by find_report|]).
    by apply elem_of_nil in Hin.
  - intros l i oi k Hitems Hi Hin Hk. unfold AppGeminiOnly.v_NutritionEstimate.
    do 5 apply reports_ap_l. apply reports_ap_r.
    eapply required_reports_inner; [exact Hitems|]. simpl.
    eapply v_elements_reports; [exact Hi|]. simpl.
    by apply (v_FoodItem_reports [LField (lit "items"); LIndex i] oi k).
Qed.

(** ** More on the food query *)

Lemma lstrip_cons s c r : Py.lstrip s = c :: r → isspace c = false.
Proof.
  induction s as [|a s IH]; simpl; [done|].
  destruct (isspace a) eqn:Ha; [done|]. by intros [= <- _].
Qed.

Lemma lstrip_suffix s : ∃ pre, s = pre ++ Py.lstrip s.
Proof.
  induction s as [|a s [pre IH]]; simpl; [by exists []|].
  destruct (isspace a); [|by exists []].
  exists (a :: pre). simpl. by rewrite <- IH.
Qed.

Lemma strip_first s c r : Py.strip s = c :: r → isspace c = false.
Proof.
  unfold Py.strip, Py.rstrip. intros Hs.
  apply (f_equal (@rev N)) in Hs. rewrite rev_involutive in Hs. simpl in Hs.
  destruct (lstrip_suffix (rev (Py.lstrip s))) as [pre Hpre].
  rewrite Hs in Hpre. apply (f_equal (@rev N)) in Hpre.
  rewrite rev_involutive, app_assoc, rev_unit in Hpre.
  by eapply lstrip_cons.
Qed.

Lemma strip_last s c r : Py.strip s = r ++ [c] → isspace c = false.
Proof.
  unfold Py.strip, Py.rstrip. intros Hs.
  apply (f_equal (@rev N)) in Hs. rewrite rev_involutive, rev_unit in Hs.
  by eapply lstrip_cons.
Qed.

Lemma replace_app c new a b :
  Py.replace c new (a ++ b) = Py.replace c new a ++ Py.replace c new b.
Proof. induction a as [|x a IH]; simpl; [done|]. by rewrite IH, app_assoc. Qed.

Lemma query_of_ends t :
  (∀ c r, App.query_of t = c :: r → isspace c = false)
  ∧ (∀ c r, App.query_of t = r ++ [c] → isspace c = false).
Proof.
  unfold App.query_of. set (s := Py.strip (default [] t)).
  assert (∀ x, isspace x = false → (x =? 10)%N = false) as Hnl.
  { intros x Hx. destruct (N.eqb_spec x 10) as [->|]; [done|done]. }
  split; intros c r Hq.
  - destruct s as [|c0 r0] eqn:Hs; [done|].
    pose proof (strip_first _ _ _ Hs) as Hc0. simpl in Hq.
    rewrite (Hnl _ Hc0) in Hq. by injection Hq as <- _.
  - destruct (decide (s = [])) as [Hnil|Hne].
    { rewrite Hnil in Hq. by destruct r. }
    apply last_is_Some in Hne as [c0 Hlast]. apply last_Some in Hlast as [r0 Hs].
    pose proof (strip_last _ _ _ Hs) as Hc0. rewrite Hs, replace_app in Hq.
    simpl in Hq. rewrite (Hnl _ Hc0) in Hq. simpl in Hq.
    by apply app_inj_tail in Hq as [_ <-].
Qed.

(** The query that [build_food_query_from_image] returns, in app.py and in
    main.py, neither begins nor ends with white space. *)
Theorem query_has_no_surrounding_space (sv : Services) (image_path : str) (w : World)
    (q : str) :
  (∃ client, (App.build_food_query_from_image sv client image_path w).1 = inr q)
  ∨ (∃ c, (Main.build_food_query_from_image sv c image_path w).1 = inr q)
  → (∀ c r, q = c :: r → isspace c = false)
    ∧ (∀ c r, q = r ++ [c] → isspace c = false).
Proof.
  intros Hq. assert (∃ t, q = App.query_of t) as [t ->]; [|apply query_of_ends].
  destruct Hq as [[[c|] Hq]|[c Hq]].
  - rewrite app_build_outcome in Hq.
    destruct (genai_upload _ _ _ _) as [x|f]; [done|]. simpl in Hq.
    destruct (genai_generate _ _ _ _ _ _) as [x|t]; [done|].
    destruct (truthy _); [|done]. injection Hq as <-. by exists t.
  - done.
  - rewrite main_build_outcome in Hq.
    destruct (genai_upload _ _ _ _) as [x|f]; [done|]. simpl in Hq.
    destruct (genai_generate _ _ _ _ _ _) as [x|t]; [done|].
    destruct (truthy _); [|done]. injection Hq as <-. by exists t.
Qed.

(** ** The request to the nutrition database *)

Lemma hex_digit_safe d : (d < 16)%N → unreserved (hex_digit d) = true.
Proof.
  intros Hd. destruct d as [|p]; [done|].
  do 4 (destruct p as [p|p|]; try done); lia.
Qed.

Lemma utf8_bytes c : (c < 1114112)%N → Forall (λ b, (b < 256)%N) (utf8 c).
Proof.
  intros Hc. unfold utf8.
  assert (∀ x, (128 + x mod 64 < 256)%N) as Hm.
  { intros x. pose proof (N.mod_lt x 64 ltac:(lia)). lia. }
  assert (∀ k d n, (c < d * n)%N → (k + n ≤ 256)%N → (k + c / d < 256)%N) as Hd.
  { intros k d n Hlt Hle.
    pose proof (N.Div0.div_lt_upper_bound c d n Hlt). lia. }
  destruct (N.ltb_spec c 128) as [H1|H1].
  { constructor; [lia|constructor]. }
  destruct (N.ltb_spec c 2048) as [H2|H2].
  { constructor; [apply (Hd _ _ 32%N); lia|].
    constructor; [apply Hm|constructor]. }
  destruct (N.ltb_spec c 65536) as [H3|H3].
  { constructor; [apply (Hd _ _ 16%N); lia|].
    constructor; [apply Hm|].
    constructor; [apply Hm|constructor]. }
  constructor; [apply (Hd _ _ 5%N); lia|].
  constructor; [apply Hm|].
  constructor; [apply Hm|].
  constructor; [apply Hm|constructor].
Qed.

Lemma utf8_nonempty c : utf8 c ≠ [].
Proof.
  unfold utf8. destruct (c <? 128)%N; [done|].
  destruct (c <? 2048)%N; [done|]. by destruct (c <? 65536)%N.
Qed.

Lemma percent_safe b : (b < 256)%N → Forall (λ c, Behaviour.url_safe c = true) (percent b).
Proof.
  intros Hb. unfold percent. constructor; [reflexivity|].
  constructor; [|constructor; [|constructor]]; unfold Behaviour.url_safe.
  - rewrite hex_digit_safe; [done|]. apply N.Div0.div_lt_upper_bound. lia.
  - rewrite hex_digit_safe; [done|]. apply N.mod_lt. lia.
Qed.

Lemma escapes_safe bs :
  Forall (λ b, (b < 256)%N) bs
  → Forall (λ c, Behaviour.url_safe c = true) (flat_map percent bs).
Proof.
  induction 1 as [|b bs Hb _ IH]; [constructor|].
  cbn [flat_map]. apply Forall_app. split; [by apply percent_safe|exact IH].
Qed.

Lemma quote_safe s :
  Forall (λ c, Behaviour.scalar c = true) s
  → Forall (λ c, Behaviour.url_safe c = true) (quote s).
Proof.
  induction 1 as [|c s Hc _ IH]; [constructor|].
  unfold quote in *. cbn [flat_map]. apply Forall_app. split; [|exact IH].
  destruct (unreserved c) eqn:Hu.
  - constructor; [|constructor]. unfold Behaviour.url_safe. by rewrite Hu.
  - apply escapes_safe, utf8_bytes. unfold Behaviour.scalar in Hc.
    apply orb_true_iff in Hc as [Hc|[_ Hc]%andb_true_iff];
      apply N.ltb_lt in Hc; lia.
Qed.

Lemma quote_unreserved s : Forall (λ c, unreserved c = true) s → quote s = s.
Proof.
  induction 1 as [|c s Hc _ IH]; [done|].
  unfold quote in *. simpl. by rewrite Hc, IH.
Qed.

Lemma quote_nonempty s : s ≠ [] → quote s ≠ [].
Proof.
  destruct s as [|c s]; [done|]. intros _. unfold quote. simpl.
  destruct (unreserved c); [done|].
  pose proof (utf8_nonempty c) as Hu. destruct (utf8 c) as [|b bs]; [done|].
  done.
Qed.

(** The URL that [call_calorieninjas] and [get_calories_from_query] request
    is the fixed endpoint followed by the quoted query.  For a query of
    Unicode scalar values the quoted part holds only letters, digits, the
    characters [_.-~/] and percent escapes, so a space, a quote mark or one
    of [&?#=] in the query cannot change the shape of the request; it is
    empty only for the empty query, and it is the query itself when the
    query needs no quoting. *)
Theorem request_url_is_quoted (sv : Services) (environ : gmap str str)
    (key : option str) (query : str) (w : World) :
  Forall (λ c, Behaviour.scalar c = true) query
  → ∃ u,
      (App.call_calorieninjas sv key query w).2
      = Behaviour.extend [HttpGet (api_url ++ u)] w
      ∧ (Main.get_calories_from_query sv environ query w).2
        = Behaviour.extend [HttpGet (api_url ++ u)] w
      ∧ Forall (λ c, Behaviour.url_safe c = true) u
      ∧ (query ≠ [] → u ≠ [])
      ∧ (Forall (λ c, unreserved c = true) query → u = query).
Proof.
  intros Hq. exists (quote query).
  rewrite call_calorieninjas_exact, get_calories_exact.
  repeat split; auto using quote_safe, quote_nonempty, quote_unreserved.
Qed.

(** ** The sum over the items, item by item *)

Lemma sum_from_all acc l cs :
  Forall2 (λ item c, item_calories item = inr c) l cs
  → ∃ t, sum_from acc l = inr t ∧ (t == acc + Behaviour.sum_list cs)%Q.
Proof.
  intros Hl. revert acc. induction Hl as [|item c l cs Hc _ IH]; intros acc; simpl.
  - exists acc. split; [done|]. ring.
  - rewrite Hc. destruct (IH (acc + c)%Q) as (t & -> & Heq).
    exists t. split; [done|]. rewrite Heq. ring.
Qed.

Lemma sum_from_first_failure acc pre item post cs x :
  Forall2 (λ item c, item_calories item = inr c) pre cs
  → item_calories item = inl x
  → sum_from acc (pre ++ item :: post) = inl x.
Proof.
  intros Hpre Hx. revert acc.
  induction Hpre as [|i c pre cs Hc _ IH]; intros acc; simpl.
  - by rewrite Hx.
  - rewrite Hc. apply IH.
Qed.

Lemma database_answer_items sv key message query resp o l :
  http_get sv (api_url ++ quote query) key = inr resp
  → status_code resp = 200
  → loads (text resp) = Some (JObj o)
  → iterate (default (JArr []) (obj_get (lit "items") o)) = inr l
  → Behaviour.database_answer sv key message query
    = match sum_from 0%Q l with
      | inl x => inl x
      | inr t => inr (JObj o, default (JArr []) (obj_get (lit "items") o), t)
      end.
Proof.
  intros Hget Hst Hbody Hl. unfold Behaviour.database_answer.
  rewrite Hget, Hst. simpl. rewrite Hbody. simpl. unfold sum_calories. by rewrite Hl.
Qed.



(** ** What the request functions leave alone *)

(** The five functions that talk to the services do only that: whatever the
    services answer, each leaves the files, the names to draw and the page
    untouched, and adds to the trace nothing but its own requests. *)
Theorem request_functions_only_request (sv : Services) (environ : gmap str str)
    (client : option Client) (c : Client) (key : option str) (path query : str)
    (w : World) :
  let only_requests (w' : World) :=
    ∃ evs, w' = Behaviour.extend evs w
         ∧ Forall (λ e, Behaviour.is_request e = true) evs in
  only_requests (AppGeminiOnly.estimate_nutrition_with_gemini sv client path w).2
  ∧ only_requests (App.build_food_query_from_image sv client path w).2
  ∧ only_requests (Main.build_food_query_from_image sv c path w).2
  ∧ only_requests (App.call_calorieninjas sv key query w).2
  ∧ only_requests (Main.get_calories_from_query sv environ query w).2.
Proof.
  intros only_requests. subst only_requests. cbv beta.
  assert (∀ w', w' = w → ∃ evs, w' = Behaviour.extend evs w
                              ∧ Forall (λ e, Behaviour.is_request e = true) evs) as Hnone.
  { intros w' ->. exists []. by rewrite extend_nil. }
  split; [|split; [|split; [|split]]].
  - destruct client as [c'|]; [|by apply Hnone].
    rewrite estimate_outcome. destruct (genai_upload _ _ _ _); simpl;
      eexists; (split; [reflexivity|]); by repeat constructor.
  - destruct client as [c'|]; [|by apply Hnone].
    rewrite app_build_outcome. destruct (genai_upload _ _ _ _); simpl;
      eexists; (split; [reflexivity|]); by repeat constructor.
  - rewrite main_build_outcome. destruct (genai_upload _ _ _ _); simpl;
      eexists; (split; [reflexivity|]); by repeat constructor.
  - rewrite call_calorieninjas_exact. simpl.
    eexists. split; [reflexivity|]. by repeat constructor.
  - rewrite get_calories_exact. simpl.
    eexists. split; [reflexivity|]. by repeat constructor.
Qed.

(** ** The further properties at concrete inputs *)


Lemma gemini_page_run_witness :
  AppGeminiOnly.main (says missing_text) (Some some_client) (Some meal_jpg) true w0
  = (inr tt,
     {| fs := ∅; names := [lit "p0q1"]; disk_full := false;
        trace := [ Shown (StWrite (lit "Processing image..."));
                   TempCreated (lit "/tmp/tmpk3x9.jpg");
                   TempWritten (lit "/tmp/tmpk3x9.jpg") (getvalue meal_jpg);
                   Shown (StWrite (lit "Saved temporary file: " ++ lit "/tmp/tmpk3x9.jpg"));
                   Shown (StWrite (lit "Sending to Gemini for analysis..."));
                   FilesUpload (lit "/tmp/tmpk3x9.jpg") ]
                 ++ Behaviour.gemini_answer_events (says missing_text) some_client
                      (lit "/tmp/tmpk3x9.jpg") (Some (getvalue meal_jpg))
                 ++ [ Removed (lit "/tmp/tmpk3x9.jpg");
                      Shown (StWrite (lit "Cleanup: Temporary file removed.")) ] |}).
Proof.
  apply (gemini_page_run (says missing_text) some_client meal_jpg (lit "jpg")
           (lit "/tmp/tmpk3x9.jpg") [lit "p0q1"] w0).
  - vm_compute. reflexivity.
  - apply list_elem_of_here.
  - vm_compute. reflexivity.
  - reflexivity.
Defined.

Lemma gemini_page_restores_files_witness :
  fs (AppGeminiOnly.main (says missing_text) (Some some_client) (Some meal_jpg) true w0).2
  = fs w0.
Proof.
  apply (gemini_page_restores_files (says missing_text) (Some some_client)
           (Some meal_jpg) true w0).
  reflexivity.
Defined.



Lemma app_page_run_witness :
  (∃ n, n ∈ names w0 ∧ lit "/tmp/tmpk3x9.png" = tempdir ++ n ++ lit ".png")
  ∧ App.page ninjas both_keys (Some meal_jpg) true w0
    = (inr tt,
       {| fs := <[lit "/tmp/tmpk3x9.png" := getvalue meal_jpg]> (fs w0);
          names := [lit "p0q1"]; disk_full := false;
          trace := trace w0
                   ++ [ TempCreated (lit "/tmp/tmpk3x9.png");
                        TempWritten (lit "/tmp/tmpk3x9.png") (getvalue meal_jpg);
                        FilesUpload (lit "/tmp/tmpk3x9.png") ]
                   ++ Behaviour.app_answer_events ninjas (lit "g-key") (lit "n-key")
                        (lit "/tmp/tmpk3x9.png") (Some (getvalue meal_jpg)) |}).
Proof.
  apply (app_page_run ninjas both_keys (Some meal_jpg) meal_jpg (lit "g-key")
           (lit "n-key") (lit "/tmp/tmpk3x9.png") [lit "p0q1"] w0);
    vm_compute; reflexivity.
Defined.

Lemma validation_ignores_undeclared_members_witness :
  AppGeminiOnly.v_NutritionEstimate [] (JObj plain_data) = inr negative_estimate
  ∧ AppGeminiOnly.v_NutritionEstimate [] (JObj (undeclared ++ plain_data))
    = inr negative_estimate
  ∧ AppGeminiOnly.v_NutritionEstimate [] (JObj (plain_data ++ undeclared))
    = inr negative_estimate.
Proof.
  assert (AppGeminiOnly.v_NutritionEstimate [] (JObj plain_data) = inr negative_estimate)
    as He by (vm_compute; reflexivity).
  split; [exact He|].
  refine (proj1 (validation_ignores_undeclared_members [] plain_data undeclared _)
            negative_estimate He).
  repeat constructor; simpl; intros Hin;
    apply list_elem_of_In in Hin; vm_compute in Hin;
    repeat (destruct Hin as [Hin|Hin]; [discriminate Hin|]); exact Hin.
Defined.

Lemma query_has_no_surrounding_space_witness :
  (Main.build_food_query_from_image spaced_answer some_client meal_path w0).1
  = inr (lit "2 eggs toast")
  ∧ (∀ c r, lit "2 eggs toast" = c :: r → isspace c = false)
  ∧ (∀ c r, lit "2 eggs toast" = r ++ [c] → isspace c = false).
Proof.
  assert ((Main.build_food_query_from_image spaced_answer some_client meal_path w0).1
          = inr (lit "2 eggs toast")) as Hq by (vm_compute; reflexivity).
  split; [exact Hq|].
  apply (query_has_no_surrounding_space spaced_answer meal_path w0 (lit "2 eggs toast")).
  right. exists some_client. exact Hq.
Defined.

Lemma request_url_is_quoted_witness :
  ∃ u,
    (App.call_calorieninjas ninjas (Some (lit "n-key")) (lit "1 egg & 2 toast?") w0).2
    = Behaviour.extend [HttpGet (api_url ++ u)] w0
    ∧ (Main.get_calories_from_query ninjas ∅ (lit "1 egg & 2 toast?") w0).2
      = Behaviour.extend [HttpGet (api_url ++ u)] w0
    ∧ Forall (λ c, Behaviour.url_safe c = true) u
    ∧ (lit "1 egg & 2 toast?" ≠ [] → u ≠ [])
    ∧ (Forall (λ c, unreserved c = true) (lit "1 egg & 2 toast?")
       → u = lit "1 egg & 2 toast?").
Proof.
  apply (request_url_is_quoted ninjas ∅ (Some (lit "n-key")) (lit "1 egg & 2 toast?") w0).
  apply Forall_forall. intros c Hin. apply list_elem_of_In in Hin. vm_compute in Hin.
  repeat (destruct Hin as [<-|Hin]; [reflexivity|]). destruct Hin.
Defined.


